(** * ksb-pyside-kit: generic CRUD controller, password policy, progress worker

    A shallow embedding of
    - [controllers/base_controller.py] and [controllers/base.py] (the two
      generic [BaseController] classes),
    - [controllers/utils.py] (operator and option types),
    - [authentication/controllers/user_controller.py] ([AuthController]),
    - [authentication/controllers/registration_code_controller.py]
      ([RegistrationCodeController]),
    - [components/progress_bar.py] ([ProgressWorker]),
    together with a reference model of the ORM session the controllers
    drive: one table of rows, a transaction-local working copy, a unit of
    work flushed by [commit], primary-key and uniqueness constraints.
    Other constraints ([NOT NULL], foreign keys) and failures of the
    database connection are outside the model. *)

From stdpp Require Import gmap strings list fin_maps pretty.
From Stdlib Require Import ZArith Ascii String.

Open Scope string_scope.
Open Scope list_scope.
Open Scope Z_scope.

(** ** Python values and exceptions *)

(** Values stored in a column or passed as a keyword argument. *)
Inductive scalar :=
| SNull                      (* None / SQL NULL *)
| SBool (b : bool)
| SInt (z : Z)
| SStr (s : string).

#[global] Instance scalar_eq_dec : EqDecision scalar.
Proof. solve_decision. Defined.

#[global] Instance scalar_inhabited : Inhabited scalar := populate SNull.

(** A filter argument is a scalar or a list (or tuple) of scalars. *)
Inductive pyval :=
| Scalar (v : scalar)
| Seq (vs : list scalar).

(** The exception classes the controllers raise or catch.  [IntegrityError]
    is a subclass of [SQLAlchemyError]; every class is an [Exception]. *)
Inductive exn :=
| IntegrityError
| SQLAlchemyError
| RecordNotFoundError
| RecordAlreadyExistsError
| ValueError
| AttributeError
| TypeError
| ZeroDivisionError
| PasswordValidationError (message : option string).

Definition is_SQLAlchemyError (e : exn) : bool :=
  match e with
  | IntegrityError | SQLAlchemyError => true
  | _ => false
  end.

Inductive outcome (A : Type) :=
| Returns (a : A)
| Raises (e : exn).
Arguments Returns {A} a.
Arguments Raises {A} e.

(** ** Rows and models *)

(** A mapped instance: attribute name to value.  An attribute that is not
    set reads as NULL. *)
Abbreviation row := (gmap string scalar).

Definition attr (r : row) (name : string) : scalar := default SNull (r !! name).

(** A declarative model class.  Every model the controllers handle has the
    integer primary key [id] (they read [self.model.id]); [columns] are its
    other attributes and [unique] the columns declared [unique=True]. *)
Record Model := {
  columns : gset string;
  unique : list string
}.

Definition hasattr (model : Model) (name : string) : bool :=
  bool_decide (name = "id" ∨ name ∈ columns model).

(** ** Column expressions and queries *)

(** The expression objects the controllers build from a column. *)
#[warnings="-register-all"] Inductive predicate :=
| Like (column pattern : string)          (* column.like(pattern) *)
| ILike (column pattern : string)         (* column.ilike(pattern) *)
| In_ (column : string) (value : pyval)   (* column.in_(value) *)
| NotIn (column : string) (value : pyval) (* ~column.in_(value) *)
| Gt (column : string) (value : pyval)    (* column > value *)
| Lt (column : string) (value : pyval)    (* column < value *)
| Ge (column : string) (value : pyval)    (* column >= value *)
| Le (column : string) (value : pyval)    (* column <= value *)
| Ne (column : string) (value : pyval)    (* column != value *)
| Eq (column : string) (value : pyval)    (* column == value *)
| And (clauses : list predicate).         (* and_( *clauses ) *)

Inductive SortDirection := ASCENDING | DESCENDING.

(** A query under construction: [filter], [order_by], [offset] and [limit]
    each return a new query. *)
Record Query := {
  criteria : list predicate;
  ordering : option (string * SortDirection);
  offset_ : option Z;
  limit_ : option Z
}.

Definition session_query : Query :=
  {| criteria := []; ordering := None; offset_ := None; limit_ := None |}.

Definition query_filter (q : Query) (p : predicate) : Query :=
  {| criteria := criteria q ++ [p]; ordering := ordering q;
     offset_ := offset_ q; limit_ := limit_ q |}.

Definition query_order_by (q : Query) (column : string) (d : SortDirection) : Query :=
  {| criteria := criteria q; ordering := Some (column, d);
     offset_ := offset_ q; limit_ := limit_ q |}.

Definition query_offset (q : Query) (n : Z) : Query :=
  {| criteria := criteria q; ordering := ordering q;
     offset_ := Some n; limit_ := limit_ q |}.

Definition query_limit (q : Query) (n : Z) : Query :=
  {| criteria := criteria q; ordering := ordering q;
     offset_ := offset_ q; limit_ := Some n |}.

(** *** Reference semantics of the expressions *)

(** [str(value)], as used by the f-string [f'%{value}%'].  The repr of a
    string inside a list is written for strings without quote, backslash
    or control characters. *)
Definition py_str_scalar (v : scalar) : string :=
  match v with
  | SNull => "None"
  | SBool true => "True"
  | SBool false => "False"
  | SInt z => pretty z
  | SStr s => s
  end.

Definition py_repr_scalar (v : scalar) : string :=
  match v with
  | SStr s => "'" +:+ s +:+ "'"
  | _ => py_str_scalar v
  end.

Fixpoint join (sep : string) (parts : list string) : string :=
  match parts with
  | [] => ""
  | [p] => p
  | p :: rest => p +:+ sep +:+ join sep rest
  end.

Definition py_str (v : pyval) : string :=
  match v with
  | Scalar s => py_str_scalar s
  | Seq vs => "[" +:+ join ", " (map py_repr_scalar vs) +:+ "]"
  end.

(** SQL [LIKE]: [%] matches any run of characters, [_] any one. *)
Fixpoint like_match (pattern : string) : string → bool :=
  match pattern with
  | EmptyString => λ s, match s with EmptyString => true | _ => false end
  | String c pattern' =>
      if Ascii.eqb c "%" then
        fix star (s : string) : bool :=
          like_match pattern' s
          || match s with EmptyString => false | String _ s' => star s' end
      else if Ascii.eqb c "_" then
        λ s, match s with EmptyString => false | String _ s' => like_match pattern' s' end
      else
        λ s, match s with
             | EmptyString => false
             | String d s' => Ascii.eqb c d && like_match pattern' s'
             end
  end.

Definition lower_ascii (c : ascii) : ascii :=
  let n := N_of_ascii c in
  if ((65 <=? n) && (n <=? 90))%N
     || ((192 <=? n) && (n <=? 222) && negb (n =? 215))%N
  then ascii_of_N (n + 32) else c.

(** [str.lower()] on strings of code points below 256. *)
Fixpoint lower (s : string) : string :=
  match s with
  | EmptyString => EmptyString
  | String c s' => String (lower_ascii c) (lower s')
  end.

(** Ordering of two column values: NULL compares with nothing, integers
    numerically, strings lexicographically, booleans as 0 and 1. *)
Definition scalar_ltb (a b : scalar) : bool :=
  match a, b with
  | SInt x, SInt y => x <? y
  | SStr x, SStr y => String.ltb x y
  | SBool x, SBool y => negb x && y
  | _, _ => false
  end.

Definition scalar_eqb (a b : scalar) : bool := bool_decide (a = b).

Definition member (v : scalar) (vs : list scalar) : bool :=
  negb (scalar_eqb v SNull) && existsb (scalar_eqb v) vs.

(** Truth of an expression on a row.  [column == None] is rendered
    [IS NULL]; a comparison with NULL, or between values of different
    types, selects no row, and neither does an expression that is ill
    formed (membership in a scalar, comparison with a list). *)
Fixpoint holds (p : predicate) (r : row) : bool :=
  match p with
  | Like c pat =>
      match attr r c with SStr s => like_match pat s | _ => false end
  | ILike c pat =>
      match attr r c with SStr s => like_match (lower pat) (lower s) | _ => false end
  | In_ c (Seq vs) => member (attr r c) vs
  | In_ c (Scalar _) => false
  | NotIn c (Seq vs) => negb (scalar_eqb (attr r c) SNull) && negb (member (attr r c) vs)
  | NotIn c (Scalar _) => false
  | Gt c (Scalar v) => scalar_ltb v (attr r c)
  | Lt c (Scalar v) => scalar_ltb (attr r c) v
  | Ge c (Scalar v) => scalar_ltb v (attr r c) || (negb (scalar_eqb v SNull) && scalar_eqb (attr r c) v)
  | Le c (Scalar v) => scalar_ltb (attr r c) v || (negb (scalar_eqb v SNull) && scalar_eqb (attr r c) v)
  | Ne c (Scalar SNull) => negb (scalar_eqb (attr r c) SNull)
  | Ne c (Scalar v) => negb (scalar_eqb (attr r c) SNull) && negb (scalar_eqb (attr r c) v)
  | Eq c (Scalar v) => scalar_eqb (attr r c) v
  | Gt _ (Seq _) | Lt _ (Seq _) | Ge _ (Seq _) | Le _ (Seq _)
  | Ne _ (Seq _) | Eq _ (Seq _) => false
  | And clauses => forallb (λ q, holds q r) clauses
  end.

(** A row is selected when it satisfies every criterion of the query. *)
Definition selects (q : Query) (r : row) : bool :=
  forallb (λ p, holds p r) (criteria q).

Definition matching (q : Query) (table : list row) : list row :=
  List.filter (selects q) table.

(** [ORDER BY column]: a stable insertion sort on the column's value, NULLs
    first. *)
Definition scalar_leb (a b : scalar) : bool :=
  match a, b with
  | SNull, _ => true
  | _, SNull => false
  | SBool x, SBool y => implb x y
  | SBool _, _ => true
  | _, SBool _ => false
  | SInt x, SInt y => x <=? y
  | SInt _, _ => true
  | _, SInt _ => false
  | SStr x, SStr y => String.leb x y
  end.

Definition row_leb (column : string) (d : SortDirection) (a b : row) : bool :=
  match d with
  | ASCENDING => scalar_leb (attr a column) (attr b column)
  | DESCENDING => scalar_leb (attr b column) (attr a column)
  end.

Fixpoint insert_sorted (leb : row → row → bool) (x : row) (l : list row) : list row :=
  match l with
  | [] => [x]
  | y :: l' => if leb x y then x :: l else y :: insert_sorted leb x l'
  end.

Definition sort_rows (leb : row → row → bool) (l : list row) : list row :=
  foldr (insert_sorted leb) [] l.

Definition ordered (q : Query) (rows : list row) : list row :=
  match ordering q with
  | Some (column, d) => sort_rows (row_leb column d) rows
  | None => rows
  end.

(** [OFFSET n] skips [n] rows (none when [n] is negative); [LIMIT n] keeps
    at most [n] rows (all of them when [n] is negative). *)
Definition apply_offset (q : Query) (rows : list row) : list row :=
  match offset_ q with
  | Some n => drop (Z.to_nat n) rows
  | None => rows
  end.

Definition apply_limit (q : Query) (rows : list row) : list row :=
  match limit_ q with
  | Some n => if n <? 0 then rows else take (Z.to_nat n) rows
  | None => rows
  end.

Definition select (q : Query) (table : list row) : list row :=
  apply_limit q (apply_offset q (ordered q (matching q table))).

(** ** The ORM session *)

(** The module-level [session] object.  [committed] is the stored state of
    the table; [working] is the table as the open transaction sees it;
    [new] and [deleted] are the objects handed to [session.add] and
    [session.delete] and not yet flushed; [flushed] pairs each object
    inserted by the last flush with its persistent state (the instance as
    the flush filled it in, primary key included). *)
Record Session := {
  committed : list row;
  working : list row;
  new : list row;
  deleted : list row;
  flushed : list (row * row)
}.

(** A session with nothing pending on a stored table. *)
Definition closed (table : list row) : Session :=
  {| committed := table; working := table; new := []; deleted := []; flushed := [] |}.

(** Controller code: a computation on the session that returns or raises. *)
Definition Ctl (A : Type) : Type := Session → outcome A * Session.

#[global] Instance ctl_ret : MRet Ctl := λ A a s, (Returns a, s).

#[global] Instance ctl_bind : MBind Ctl := λ A B f c s,
  match c s with
  | (Returns a, s') => f a s'
  | (Raises e, s') => (Raises e, s')
  end.

Definition raise {A : Type} (e : exn) : Ctl A := λ s, (Raises e, s).

(** [try: body / except ...: handler].  [handler e] is [None] when no
    [except] clause matches [e]. *)
Definition try_except {A : Type} (body : Ctl A) (handler : exn → option (Ctl A)) : Ctl A :=
  λ s, match body s with
       | (Raises e, s') =>
           match handler e with
           | Some h => h s'
           | None => (Raises e, s')
           end
       | (Returns a, s') => (Returns a, s')
       end.

(** [try: body / finally: final]. *)
Definition try_finally {A : Type} (body : Ctl A) (final : Ctl unit) : Ctl A :=
  λ s, let '(r, s') := body s in
       match final s' with
       | (Returns _, s'') => (r, s'')
       | (Raises e, s'') => (Raises e, s'')
       end.

(** A [for] loop threading the variables it assigns. *)
Fixpoint for_each {A B : Type} (items : list A) (acc : B) (body : B → A → Ctl B) : Ctl B :=
  match items with
  | [] => mret acc
  | x :: rest => acc' ← body acc x; for_each rest acc' body
  end.

(** *** Integrity constraints *)

(** Two rows clash when they carry the same primary key or the same
    non-NULL value in a unique column. *)
Definition same_key (column : string) (a b : row) : bool :=
  negb (scalar_eqb (attr a column) SNull) && scalar_eqb (attr a column) (attr b column).

Definition clash (model : Model) (a b : row) : bool :=
  same_key "id" a b || existsb (λ c, same_key c a b) (unique model).

Definition row_id_max (table : list row) : Z :=
  foldr (λ r acc, match attr r "id" with SInt z => Z.max z acc | _ => acc end) 0 table.

(** The row an [INSERT] of [instance] writes: the primary key is generated
    (one more than the largest in use) when the instance carries none. *)
Definition with_primary_key (table : list row) (instance : row) : row :=
  match attr instance "id" with
  | SNull => <["id" := SInt (row_id_max table + 1)]> instance
  | _ => instance
  end.

Definition insert_violates (model : Model) (table : list row) (instance : row) : bool :=
  existsb (clash model (with_primary_key table instance)) table.

(** An [UPDATE] violates a constraint when a row it touched clashes with
    another row of the resulting table. *)
Fixpoint update_violates (model : Model) (rows : list (bool * row)) : bool :=
  match rows with
  | [] => false
  | (touched, r) :: rest =>
      existsb (λ '(touched', r'), (touched || touched') && clash model r r') rest
      || update_violates model rest
  end.

(** *** Session operations *)

Section session.
Variable model : Model.

Definition session_add (instance : row) : Ctl unit := λ s,
  (Returns (),
   {| committed := committed s; working := working s;
      new := new s ++ [instance]; deleted := deleted s; flushed := flushed s |}).

Definition session_delete (instance : row) : Ctl unit := λ s,
  (Returns (),
   {| committed := committed s; working := working s;
      new := new s; deleted := deleted s ++ [instance]; flushed := flushed s |}).

(** Flush the pending inserts, in order. *)
Fixpoint flush_new (pending : list row) (table : list row) (done : list (row * row))
  : option (list row * list (row * row)) :=
  match pending with
  | [] => Some (table, done)
  | instance :: rest =>
      if insert_violates model table instance then None
      else
        let r := with_primary_key table instance in
        flush_new rest (table ++ [r]) (done ++ [(instance, r)])
  end.

(** Flush the pending deletes: [DELETE ... WHERE id = <primary key>]. *)
Definition flush_deleted (pending : list row) (table : list row) : list row :=
  foldl (λ t instance, List.filter (λ r, negb (same_key "id" instance r)) t) table pending.

(** [session.commit()]: flush, then make the working table the stored one.
    A constraint violation raises [IntegrityError] and stores nothing. *)
Definition session_commit : Ctl unit := λ s,
  match flush_new (new s) (working s) [] with
  | None => (Raises IntegrityError, s)
  | Some (table, done) =>
      let table' := flush_deleted (deleted s) table in
      (Returns (),
       {| committed := table'; working := table'; new := []; deleted := [];
          flushed := done |})
  end.

(** [session.rollback()]: drop everything not committed. *)
Definition session_rollback : Ctl unit := λ s,
  (Returns (),
   {| committed := committed s; working := committed s; new := []; deleted := [];
      flushed := flushed s |}).

(** [session.close()]: end the transaction (uncommitted work is lost) and
    detach every object. *)
Definition session_close : Ctl unit := λ s,
  (Returns (), closed (committed s)).

(** Reading the object [instance] after a flush: the ORM filled it in. *)
Definition the_instance (instance : row) : Ctl row := λ s,
  (Returns match List.find (λ p, bool_decide (p.1 = instance)) (flushed s) with
           | Some (_, persistent) => persistent
           | None => instance
           end, s).

(** [self.model( **kwargs )]: the declarative constructor sets each keyword
    on the new instance, and raises [TypeError] for a keyword that is not
    an attribute of the class. *)
Definition model_new (kwargs : gmap string scalar) : Ctl row :=
  if forallb (hasattr model) (map fst (map_to_list kwargs)) then mret kwargs
  else raise TypeError.

(** [query.get(id_)]: the row with that primary key, or [None]. *)
Definition query_get (id_ : Z) : Ctl (option row) := λ s,
  (Returns (List.find (λ r, scalar_eqb (attr r "id") (SInt id_)) (working s)), s).

Definition query_all (q : Query) : Ctl (list row) := λ s,
  (Returns (select q (working s)), s).

(** [query.count()]: the number of matching rows. *)
Definition query_count (q : Query) : Ctl Z := λ s,
  (Returns (Z.of_nat (List.length (matching q (working s)))), s).

(** [scalar()] of a [func.count(column)] query: the number of matching
    rows whose [column] is not NULL. *)
Definition query_scalar_count (column : string) (q : Query) : Ctl Z := λ s,
  (Returns (Z.of_nat (List.length
     (List.filter (λ r, negb (scalar_eqb (attr r column) SNull)) (matching q (working s))))),
   s).

(** [query.update(values, synchronize_session=False)]: set the values on
    every matching row, at once; the number of rows matched. *)
Definition query_update (q : Query) (values : gmap string scalar) : Ctl Z := λ s,
  let rows := map (λ r, if selects q r then (true, values ∪ r) else (false, r)) (working s) in
  if update_violates model rows then (Raises IntegrityError, s)
  else
    (Returns (Z.of_nat (List.length (matching q (working s)))),
     {| committed := committed s; working := map snd rows;
        new := new s; deleted := deleted s; flushed := flushed s |}).

(** [query.delete(synchronize_session=False)]. *)
Definition query_delete (q : Query) : Ctl Z := λ s,
  (Returns (Z.of_nat (List.length (matching q (working s)))),
   {| committed := committed s;
      working := List.filter (λ r, negb (selects q r)) (working s);
      new := new s; deleted := deleted s; flushed := flushed s |}).

(** [getattr(self.model, name)]. *)
Definition getattr (name : string) : Ctl string :=
  if hasattr model name then mret name else raise AttributeError.

(** [a // b] on integers. *)
Definition floordiv (a b : Z) : Ctl Z :=
  if b =? 0 then raise ZeroDivisionError else mret (a `div` b).

(** [session.bulk_save_objects(instances)]: the rows are inserted one after
    the other inside the open transaction; the first one that violates a
    constraint stops the statement with [IntegrityError], the rows before
    it staying in the transaction until it is rolled back.  The instances
    themselves are not refreshed. *)
Fixpoint bulk_insert (instances : list row) (table : list row) : outcome unit * list row :=
  match instances with
  | [] => (Returns (), table)
  | instance :: rest =>
      if insert_violates model table instance then (Raises IntegrityError, table)
      else bulk_insert rest (table ++ [with_primary_key table instance])
  end.

Definition session_bulk_save_objects (instances : list row) : Ctl unit := λ s,
  let '(result, table) := bulk_insert instances (working s) in
  (result,
   {| committed := committed s; working := table;
      new := new s; deleted := deleted s; flushed := flushed s |}).

(** [query.get(key)] for a key read from a row, an integer or [None]: no
    row for [None]. *)
Definition query_get_key (key : scalar) : Ctl (option row) := λ s,
  (Returns match key with
           | SNull => None
           | _ => List.find (λ r, scalar_eqb (attr r "id") key) (working s)
           end, s).
End session.

(** ** Python helpers shared by the controllers *)

(** Truth value of a dict: empty is false. *)
Definition dict_truthy {V : Type} (d : gmap string V) : bool :=
  match map_to_list d with
  | [] => false
  | _ :: _ => true
  end.

(** ['__' in key]. *)
Fixpoint contains_dunder (key : string) : bool :=
  match key with
  | EmptyString => false
  | String c rest =>
      match rest with
      | String d _ => (Ascii.eqb c "_" && Ascii.eqb d "_") || contains_dunder rest
      | EmptyString => false
      end
  end.

(** [key.split('__')]: cut at every occurrence of the separator, scanning
    from the left. *)
Fixpoint split_dunder (key : string) : list string :=
  match key with
  | EmptyString => [EmptyString]
  | String c rest =>
      let cut :=
        match rest with
        | String d rest' =>
            if Ascii.eqb c "_" && Ascii.eqb d "_" then Some (split_dunder rest') else None
        | EmptyString => None
        end in
      match cut with
      | Some parts => EmptyString :: parts
      | None =>
          match split_dunder rest with
          | part :: parts => String c part :: parts
          | [] => [String c EmptyString]
          end
      end
  end.

(** [field, operator = parts]: unpacking anything but two values raises
    [ValueError]. *)
Definition unpack2 (parts : list string) : Ctl (string * string) :=
  match parts with
  | [field; operator] => mret (field, operator)
  | _ => raise ValueError
  end.

(** Values of the dictionary [paginate] returns. *)
Inductive pyobj :=
| Rows (items : list row)
| Int (n : Z).

(** Truth value of an optional string: [None] and the empty string are
    false. *)
Definition str_truthy (s : option string) : option string :=
  match s with
  | Some EmptyString | None => None
  | Some name => Some name
  end.

(** Truth value of an optional integer: [None] and [0] are false. *)
Definition int_truthy (n : option Z) : option Z :=
  match n with
  | Some 0 | None => None
  | Some n => Some n
  end.

(** Truth value of an attribute. *)
Definition truthy (v : scalar) : bool :=
  match v with
  | SNull => false
  | SBool b => b
  | SInt z => negb (z =? 0)
  | SStr s => negb (String.eqb s "")
  end.

(** ** controllers/base_controller.py *)

Module base_controller.
Section BaseController.
Variable model : Model.

Definition _apply_filters (query : Query) (filters : gmap string pyval) : Query :=
  foldl (λ query '(key, value),
           if hasattr model key then
             match value with
             | Seq _ => query_filter query (In_ key value)
             | Scalar _ => query_filter query (Eq key value)
             end
           else query)
        query (map_to_list filters).

Definition paginate (page per_page : Z) (filters : gmap string pyval)
  : Ctl (gmap string pyobj) :=
  try_finally
    (let query := session_query in
     let query := if dict_truthy filters then _apply_filters query filters else query in
     let offset := (page - 1) * per_page in
     total ← query_count query;
     items ← query_all (query_limit (query_offset query offset) per_page);
     pages ← floordiv (total + per_page - 1) per_page;
     mret (<["items" := Rows items]> (<["total" := Int total]> (<["page" := Int page]>
          (<["per_page" := Int per_page]> (<["pages" := Int pages]> ∅))))))
    session_close.

Definition find_by_attributes (kwargs : gmap string pyval) : Ctl (list row) :=
  try_finally
    (let query := session_query in
     filters ← for_each (map_to_list kwargs) [] (λ filters '(key, value),
       if contains_dunder key then
         '(field, operator) ← unpack2 (split_dunder key);
         if hasattr model field then
           let column := field in
           if String.eqb operator "like" then
             mret (filters ++ [Like column ("%" +:+ py_str value +:+ "%")])
           else if String.eqb operator "in" then mret (filters ++ [In_ column value])
           else if String.eqb operator "gt" then mret (filters ++ [Gt column value])
           else if String.eqb operator "lt" then mret (filters ++ [Lt column value])
           else if String.eqb operator "gte" then mret (filters ++ [Ge column value])
           else if String.eqb operator "lte" then mret (filters ++ [Le column value])
           else mret filters
         else mret filters
       else
         if hasattr model key then mret (filters ++ [Eq key value])
         else mret filters);
     query_all (query_filter query (And filters)))
    session_close.

Definition create (kwargs : gmap string scalar) : Ctl row :=
  try_finally
    (try_except
       (instance ← model_new model kwargs;
        session_add instance;;
        session_commit model;;
        the_instance instance)
       (λ e, match e with
             | IntegrityError => Some (session_rollback;; raise RecordAlreadyExistsError)
             | SQLAlchemyError => Some (session_rollback;; raise e)
             | _ => None
             end))
    session_close.

Definition get_by_id (id_ : Z) : Ctl row :=
  try_finally
    (try_except
       (instance ← query_get id_;
        match instance with
        | None => raise RecordNotFoundError
        | Some instance => mret instance
        end)
       (λ e, if is_SQLAlchemyError e then Some (raise e) else None))
    session_close.

Definition count (filters : gmap string pyval) : Ctl Z :=
  try_finally
    (let query := session_query in
     let query := if dict_truthy filters then _apply_filters query filters else query in
     query_scalar_count "id" query)
    session_close.

Definition exists_ (filters : gmap string pyval) : Ctl bool :=
  n ← count filters; mret (0 <? n).

Definition update (id_ : Z) (kwargs : gmap string scalar) : Ctl row :=
  try_finally
    (try_except
       (let invalid_fields :=
          List.filter (λ field, negb (hasattr model field)) (map fst (map_to_list kwargs)) in
        match invalid_fields with
        | _ :: _ => raise ValueError
        | [] =>
            rows_updated ←
              query_update model
                (query_filter session_query (Eq "id" (Scalar (SInt id_)))) kwargs;
            if rows_updated =? 0 then raise RecordNotFoundError
            else session_commit model;; get_by_id id_
        end)
       (λ e, match e with
             | RecordNotFoundError | ValueError => Some (session_rollback;; raise e)
             | _ =>
                 if is_SQLAlchemyError e
                 then Some (session_rollback;; raise SQLAlchemyError)
                 else None
             end))
    session_close.

Definition delete (id_ : Z) : Ctl bool :=
  try_finally
    (try_except
       (rows_deleted ←
          query_delete (query_filter session_query (Eq "id" (Scalar (SInt id_))));
        if rows_deleted =? 0 then raise RecordNotFoundError
        else session_commit model;; mret true)
       (λ e, match e with
             | RecordNotFoundError => Some (session_rollback;; raise e)
             | _ =>
                 if is_SQLAlchemyError e
                 then Some (session_rollback;; raise SQLAlchemyError)
                 else None
             end))
    session_close.

Definition bulk_create (items : list (gmap string scalar)) : Ctl (list row) :=
  try_finally
    (try_except
       (instances ← for_each items [] (λ instances item,
                      instance ← model_new model item; mret (instances ++ [instance]));
        session_bulk_save_objects model instances;;
        session_commit model;;
        mret instances)
       (λ e, Some (session_rollback;; raise e)))
    session_close.

Definition get_all (order_by : option string) (direction : string)
  (filters : gmap string pyval) : Ctl (list row) :=
  try_finally
    (let query := session_query in
     let query := if dict_truthy filters then _apply_filters query filters else query in
     let query :=
       match str_truthy order_by with
       | Some name =>
           if hasattr model name then
             let order_column := name in
             query_order_by query order_column
               (if String.eqb direction "desc" then DESCENDING else ASCENDING)
           else query
       | None => query
       end in
     query_all query)
    session_close.

Definition search (limit offset : option Z) (filters : gmap string pyval)
  : Ctl (list row) :=
  try_finally
    (let query := session_query in
     query ← for_each (map_to_list filters) query (λ query '(key, value),
       if contains_dunder key then
         '(field, operator) ← unpack2 (split_dunder key);
         if hasattr model field then
           let column := field in
           if String.eqb operator "like" then
             mret (query_filter query (Like column ("%" +:+ py_str value +:+ "%")))
           else if String.eqb operator "lt" then mret (query_filter query (Lt column value))
           else if String.eqb operator "gt" then mret (query_filter query (Gt column value))
           else if String.eqb operator "eq" then mret (query_filter query (Eq column value))
           else mret query
         else mret query
       else
         if hasattr model key then mret (query_filter query (Eq key value))
         else mret query);
     let query := match int_truthy offset with
                  | Some n => query_offset query n
                  | None => query
                  end in
     let query := match int_truthy limit with
                  | Some n => query_limit query n
                  | None => query
                  end in
     query_all query)
    session_close.

Definition delete_all (condition : option (gmap string pyval)) : Ctl Z :=
  try_finally
    (try_except
       (let query := session_query in
        let query := match condition with
                     | Some condition =>
                         if dict_truthy condition then _apply_filters query condition
                         else query
                     | None => query
                     end in
        rows_deleted ← query_delete query;
        session_commit model;;
        mret rows_deleted)
       (λ e, if is_SQLAlchemyError e
             then Some (session_rollback;; raise SQLAlchemyError)
             else None))
    session_close.

(** [get_by_id] and [update] for an [id_] that may be [None], as
    [AuthController] and [RegistrationCodeController] call them with
    [instance.id]; at an integer they are [get_by_id] and [update] above. *)
Definition get_by_key (id_ : scalar) : Ctl row :=
  try_finally
    (try_except
       (instance ← query_get_key id_;
        match instance with
        | None => raise RecordNotFoundError
        | Some instance => mret instance
        end)
       (λ e, if is_SQLAlchemyError e then Some (raise e) else None))
    session_close.

Definition update_by_key (id_ : scalar) (kwargs : gmap string scalar) : Ctl row :=
  try_finally
    (try_except
       (let invalid_fields :=
          List.filter (λ field, negb (hasattr model field)) (map fst (map_to_list kwargs)) in
        match invalid_fields with
        | _ :: _ => raise ValueError
        | [] =>
            rows_updated ←
              query_update model (query_filter session_query (Eq "id" (Scalar id_))) kwargs;
            if rows_updated =? 0 then raise RecordNotFoundError
            else session_commit model;; get_by_key id_
        end)
       (λ e, match e with
             | RecordNotFoundError | ValueError => Some (session_rollback;; raise e)
             | _ =>
                 if is_SQLAlchemyError e
                 then Some (session_rollback;; raise SQLAlchemyError)
                 else None
             end))
    session_close.

End BaseController.
End base_controller.

(** ** controllers/utils.py *)

Module utils.

(** [QueryOperator(str, Enum)]: a member hashes and compares as its value,
    so a dictionary keyed by members is looked up by the value string. *)
Inductive QueryOperator :=
| EQUAL | NOT_EQUAL | GREATER_THAN | LESS_THAN | GREATER_EQUAL | LESS_EQUAL
| LIKE | ILIKE | IN | NOT_IN | BETWEEN | IS_NULL | NOT_NULL.

Definition QueryOperator_value (op : QueryOperator) : string :=
  match op with
  | EQUAL => "eq"
  | NOT_EQUAL => "ne"
  | GREATER_THAN => "gt"
  | LESS_THAN => "lt"
  | GREATER_EQUAL => "gte"
  | LESS_EQUAL => "lte"
  | LIKE => "like"
  | ILIKE => "ilike"
  | IN => "in"
  | NOT_IN => "not_in"
  | BETWEEN => "between"
  | IS_NULL => "is_null"
  | NOT_NULL => "not_null"
  end.

Record PaginationOptions := {
  page : Z;
  per_page : Z;
  order_by : option string;
  direction : SortDirection;
  filters : gmap string pyval
}.

(** The dataclass defaults. *)
Definition PaginationOptions_default : PaginationOptions :=
  {| page := 1; per_page := 10; order_by := None; direction := ASCENDING; filters := ∅ |}.

(** [SearchOptions]: the options of [get_all]; its fields [filters],
    [order_by] and [direction] are renamed apart from those of
    [PaginationOptions]. *)
Record SearchOptions := {
  search_filters : gmap string pyval;
  limit : option Z;
  offset : option Z;
  search_order_by : option string;
  search_direction : SortDirection;
  include_related : list string
}.

End utils.

(** ** controllers/base.py *)

Module base.
Import utils.
Section BaseController.
Variable model : Model.

Definition create (kwargs : gmap string scalar) : Ctl row :=
  try_finally
    (try_except
       (instance ← model_new model kwargs;
        session_add instance;;
        session_commit model;;
        the_instance instance)
       (λ e, match e with
             | IntegrityError => Some (session_rollback;; raise RecordAlreadyExistsError)
             | SQLAlchemyError => Some (session_rollback;; raise e)
             | _ => None
             end))
    session_close.

Definition get_by_id (id_ : Z) : Ctl row :=
  try_finally
    (try_except
       (instance ← query_get id_;
        match instance with
        | None => raise RecordNotFoundError
        | Some instance => mret instance
        end)
       (λ e, if is_SQLAlchemyError e then Some (raise e) else None))
    session_close.

Definition update (id_ : Z) (kwargs : gmap string scalar) : Ctl row :=
  try_finally
    (try_except
       (let invalid_fields :=
          List.filter (λ field, negb (hasattr model field)) (map fst (map_to_list kwargs)) in
        match invalid_fields with
        | _ :: _ => raise ValueError
        | [] =>
            rows_updated ←
              query_update model
                (query_filter session_query (Eq "id" (Scalar (SInt id_)))) kwargs;
            if rows_updated =? 0 then raise RecordNotFoundError
            else session_commit model;; get_by_id id_
        end)
       (λ e, match e with
             | RecordNotFoundError | ValueError => Some (session_rollback;; raise e)
             | _ =>
                 if is_SQLAlchemyError e
                 then Some (session_rollback;; raise e)
                 else None
             end))
    session_close.

Definition delete (id_ : Z) : Ctl bool :=
  try_finally
    (try_except
       (instance ← get_by_id id_;
        session_delete instance;;
        session_commit model;;
        mret true)
       (λ e, match e with
             | RecordNotFoundError => Some (mret false)
             | _ =>
                 if is_SQLAlchemyError e
                 then Some (session_rollback;; raise e)
                 else None
             end))
    session_close.

Definition _apply_filters (query : Query) (filters : gmap string pyval) : Ctl Query :=
  for_each (map_to_list filters) query (λ query '(key, value),
    match value with
    | Seq _ => column ← getattr model key; mret (query_filter query (In_ column value))
    | Scalar _ => column ← getattr model key; mret (query_filter query (Eq column value))
    end).

Definition _get_operator_mapping (column : string)
  : list (QueryOperator * (pyval → predicate)) :=
  [ (LIKE, λ v, Like column ("%" +:+ py_str v +:+ "%"));
    (ILIKE, λ v, ILike column ("%" +:+ py_str v +:+ "%"));
    (IN, λ v, In_ column v);
    (NOT_IN, λ v, NotIn column v);
    (GREATER_THAN, λ v, Gt column v);
    (LESS_THAN, λ v, Lt column v);
    (GREATER_EQUAL, λ v, Ge column v);
    (LESS_EQUAL, λ v, Le column v);
    (NOT_EQUAL, λ v, Ne column v);
    (EQUAL, λ v, Eq column v) ].

(** [operator_map[operator]] for a string [operator]; [None] when
    [operator in operator_map] is false. *)
Definition operator_map_get {V : Type} (operator_map : list (QueryOperator * V))
  (operator : string) : option V :=
  match List.find (λ kv, String.eqb (QueryOperator_value kv.1) operator) operator_map with
  | Some (_, v) => Some v
  | None => None
  end.

Definition find_by_attributes (kwargs : gmap string pyval) : Ctl (list row) :=
  try_finally
    (let query := session_query in
     filters ← for_each (map_to_list kwargs) [] (λ filters '(key, value),
       if contains_dunder key then
         '(field, operator) ← unpack2 (split_dunder key);
         if hasattr model field then
           let column := field in
           let operator_map := _get_operator_mapping column in
           match operator_map_get operator_map operator with
           | Some build => mret (filters ++ [build value])
           | None => mret filters
           end
         else mret filters
       else
         if hasattr model key then mret (filters ++ [Eq key value])
         else mret filters);
     query_all (query_filter query (And filters)))
    session_close.

(** Truth value of [options.order_by]: [None] and the empty string are
    false. *)
Definition order_by_truthy (order_by : option string) : option string :=
  match order_by with
  | Some EmptyString | None => None
  | Some name => Some name
  end.

Definition paginate (options : PaginationOptions) : Ctl (gmap string pyobj) :=
  try_finally
    (let query := session_query in
     query ← (if dict_truthy (filters options)
              then _apply_filters query (filters options) else mret query);
     total ← query_count query;
     query ← match order_by_truthy (order_by options) with
             | Some name =>
                 column ← getattr model name;
                 mret (query_order_by query column (direction options))
             | None => mret query
             end;
     let offset := (page options - 1) * per_page options in
     items ← query_all (query_limit (query_offset query offset) (per_page options));
     pages ← floordiv (total + per_page options - 1) (per_page options);
     mret (<["items" := Rows items]> (<["total" := Int total]>
          (<["page" := Int (page options)]> (<["per_page" := Int (per_page options)]>
          (<["pages" := Int pages]> ∅))))))
    session_close.

Definition _validate_pagination (page per_page : Z) : outcome unit :=
  if page <? 1 then Raises ValueError
  else if per_page <? 1 then Raises ValueError
  else Returns ().

Definition _calculate_offset (page per_page : Z) : Z := (page - 1) * per_page.

Definition bulk_create (items : list (gmap string scalar)) : Ctl (list row) :=
  try_finally
    (try_except
       (instances ← for_each items [] (λ instances item,
                      instance ← model_new model item; mret (instances ++ [instance]));
        session_bulk_save_objects model instances;;
        session_commit model;;
        mret instances)
       (λ e, if is_SQLAlchemyError e then Some (session_rollback;; raise e) else None))
    session_close.

Definition get_all (options : option SearchOptions) : Ctl (list row) :=
  try_finally
    (let query := session_query in
     query ← match options with
             | Some options =>
                 query ← (if dict_truthy (search_filters options)
                          then _apply_filters query (search_filters options)
                          else mret query);
                 query ← match str_truthy (search_order_by options) with
                         | Some name =>
                             order_column ← getattr model name;
                             mret (query_order_by query order_column
                                     (search_direction options))
                         | None => mret query
                         end;
                 let query := match int_truthy (offset options) with
                              | Some n => query_offset query n
                              | None => query
                              end in
                 let query := match int_truthy (limit options) with
                              | Some n => query_limit query n
                              | None => query
                              end in
                 mret query
             | None => mret query
             end;
     query_all query)
    session_close.

(** An item of [bulk_update]: a dictionary whose ['id'] entry, when there
    is one, is an integer; [item_data] holds its other entries. *)
Record update_item := {
  item_id : option Z;
  item_data : gmap string scalar
}.

Definition bulk_update (items : list update_item) : Ctl bool :=
  try_finally
    (try_except
       (for_each items () (λ _ item,
          match item_id item with
          | None => raise ValueError
          | Some id_ => update id_ (item_data item);; mret ()
          end);;
        mret true)
       (λ e, if is_SQLAlchemyError e then Some (session_rollback;; raise e) else None))
    session_close.

Definition delete_all (filters : option (gmap string pyval)) : Ctl Z :=
  try_finally
    (try_except
       (let query := session_query in
        query ← match filters with
                | Some filters =>
                    if dict_truthy filters then _apply_filters query filters
                    else mret query
                | None => mret query
                end;
        rows_deleted ← query_delete query;
        session_commit model;;
        mret rows_deleted)
       (λ e, if is_SQLAlchemyError e then Some (session_rollback;; raise e) else None))
    session_close.

End BaseController.
End base.

(** ** authentication/models/user_model.py *)

Module user_model.

Inductive UserType := ADMIN | MANAGER | SUPERUSER | DEFAULT.

(** An [Enum(UserType)] column stores the member's name. *)
Definition UserType_name (t : UserType) : string :=
  match t with
  | ADMIN => "ADMIN"
  | MANAGER => "MANAGER"
  | SUPERUSER => "SUPERUSER"
  | DEFAULT => "DEFAULT"
  end.

(** [UserModel(BaseModel)]: the columns of [BaseModel] and its own;
    [username] and [email] are unique. *)
Definition UserModel : Model :=
  {| columns := {[ "created_at"; "updated_at"; "username"; "email"; "password";
                   "first_name"; "last_name"; "user_type"; "is_active";
                   "secret_question"; "secret_answer"; "last_login"; "date_joined" ]};
     unique := ["username"; "email"] |}.

End user_model.

(** ** authentication/controllers/user_controller.py *)

Module user_controller.
Import user_model.

(** [re.search] of a one-character class: some character of the string is
    in the class.  Strings are sequences of code points below 256. *)
Definition re_search (class : ascii → bool) (s : string) : bool :=
  existsb class (list_ascii_of_string s).

Definition in_range (lo hi c : ascii) : bool :=
  ((N_of_ascii lo <=? N_of_ascii c) && (N_of_ascii c <=? N_of_ascii hi))%N.

(** [[A-Z]], [[a-z]] and [\d]. *)
Definition upper_class (c : ascii) : bool := in_range "A" "Z" c.
Definition lower_class (c : ascii) : bool := in_range "a" "z" c.
Definition digit_class (c : ascii) : bool := in_range "0" "9" c.

(** The class of special characters: space, [!@#$%&'()*+], the range from
    comma to full stop, [/[\]^_`{|}~] and the double quote (code 34). *)
Definition special_class (c : ascii) : bool :=
  existsb (Ascii.eqb c) (list_ascii_of_string " !@#$%&'()*+")
  || in_range "," "." c
  || existsb (Ascii.eqb c) (list_ascii_of_string "/[\]^_`{|}~")
  || Ascii.eqb c (ascii_of_N 34).

Definition MIN_LENGTH : Z := 8.
Definition MAX_LENGTH : Z := 50.

Definition len (s : string) : Z := Z.of_nat (String.length s).

Definition _validate_password (password : string) : bool * option string :=
  if negb ((MIN_LENGTH <=? len password) && (len password <=? MAX_LENGTH)) then
    (false, Some ("Password must be between " +:+ pretty MIN_LENGTH +:+ " and "
                  +:+ pretty MAX_LENGTH +:+ " characters"))
  else if negb (re_search upper_class password) then
    (false, Some "Password must contain at least one uppercase letter")
  else if negb (re_search lower_class password) then
    (false, Some "Password must contain at least one lowercase letter")
  else if negb (re_search digit_class password) then
    (false, Some "Password must contain at least one digit")
  else if negb (re_search special_class password) then
    (false, Some "Password must contain at least one special character")
  else (true, None).

Section AuthController.
(** [bcrypt.hashpw(password, bcrypt.gensalt())], decoded: the salted hash
    is left open.  [now] is the value of [datetime.now()]. *)
Variable bcrypt_hashpw : string → string.
Variable now : scalar.

Definition _hash_password (password : string) : string := bcrypt_hashpw password.

Definition optional (s : option string) : scalar :=
  match s with
  | Some s => SStr s
  | None => SNull
  end.

Definition create_user (username email password secret_question secret_answer : string)
  (first_name last_name : option string) (user_type : UserType) : Ctl (option row) :=
  try_except
    (let '(is_valid, error_message) := _validate_password password in
     if negb is_valid then raise (PasswordValidationError error_message)
     else
       taken ← base_controller.exists_ UserModel {[ "username" := Scalar (SStr username) ]};
       taken ← (if taken : bool then mret true
                else base_controller.exists_ UserModel {[ "email" := Scalar (SStr email) ]});
       if taken : bool then mret None
       else
         let hashed_password := _hash_password password in
         let hashed_answer := _hash_password (lower secret_answer) in
         user ← base_controller.create UserModel
                  (<["username" := SStr username]> (<["email" := SStr email]>
                  (<["password" := SStr hashed_password]>
                  (<["secret_question" := SStr secret_question]>
                  (<["secret_answer" := SStr hashed_answer]>
                  (<["first_name" := optional first_name]>
                  (<["last_name" := optional last_name]>
                  (<["user_type" := SStr (UserType_name user_type)]>
                  (<["date_joined" := now]> ∅)))))))));
         mret (Some user))
    (λ e, match e with
          | PasswordValidationError _ => Some (raise e)
          | _ => Some (mret None)
          end).

Definition change_password (user_id : Z) (new_password : string) : Ctl bool :=
  try_except
    (let '(is_valid, error_message) := _validate_password new_password in
     if negb is_valid then raise (PasswordValidationError error_message)
     else
       let hashed_password := _hash_password new_password in
       base_controller.update UserModel user_id {[ "password" := SStr hashed_password ]};;
       mret true)
    (λ e, match e with
          | PasswordValidationError _ => Some (raise e)
          | _ => Some (mret false)
          end).

End AuthController.
Section AuthController_checks.
(** [bcrypt.checkpw(password, hashed)]: left open; a hash it cannot read
    counts as a failed check (the callers turn its exception into the same
    answer).  [now] is the value of [datetime.now()]. *)
Variable bcrypt_checkpw : string → string → bool.
Variable now : scalar.

(** [_check_password]: encoding a stored hash that is not a string raises
    [AttributeError]. *)
Definition _check_password (password : string) (hashed_password : scalar) : Ctl bool :=
  match hashed_password with
  | SStr hashed => mret (bcrypt_checkpw password hashed)
  | _ => raise AttributeError
  end.

Definition verify_secret_answer (username answer : string) : Ctl bool :=
  try_except
    (user ← base_controller.find_by_attributes UserModel
              {[ "username" := Scalar (SStr username) ]};
     match user with
     | [] => mret false
     | user :: _ => _check_password (lower answer) (attr user "secret_answer")
     end)
    (λ _, Some (mret false)).

Definition update_last_login (user_id : scalar) : Ctl bool :=
  try_except
    (base_controller.update_by_key UserModel user_id {[ "last_login" := now ]};;
     mret true)
    (λ _, Some (mret false)).

Definition authenticate (username password : string) : Ctl (bool * option row) :=
  try_except
    (user ← base_controller.find_by_attributes UserModel
              {[ "username" := Scalar (SStr username) ]};
     match user with
     | [] => mret (false, None)
     | user :: _ =>
         if negb (truthy (attr user "is_active")) then mret (false, None)
         else
           checked ← _check_password password (attr user "password");
           if checked : bool then
             update_last_login (attr user "id");;
             mret (true, Some user)
           else mret (false, None)
     end)
    (λ _, Some (mret (false, None))).

Definition is_admin (user_id : scalar) : Ctl bool :=
  try_except
    (user ← base_controller.get_by_key user_id;
     mret (scalar_eqb (attr user "user_type") (SStr (UserType_name ADMIN))))
    (λ _, Some (mret false)).

Definition is_manager (user_id : scalar) : Ctl bool :=
  try_except
    (user ← base_controller.get_by_key user_id;
     mret (scalar_eqb (attr user "user_type") (SStr (UserType_name MANAGER))))
    (λ _, Some (mret false)).

End AuthController_checks.

End user_controller.

(** ** authentication/controllers/registration_code_controller.py *)

Module registration_code_controller.

(** [RegistrationCodeModel(BaseModel)]; [code] is unique. *)
Definition RegistrationCodeModel : Model :=
  {| columns := {[ "created_at"; "updated_at"; "code"; "user_type"; "is_used";
                   "expiration_date" ]};
     unique := ["code"] |}.

(** [a < b] between two attribute values: a date is held as its timestamp,
    an integer; comparing anything else with a date raises [TypeError]. *)
Definition date_lt (a b : scalar) : Ctl bool :=
  match a, b with
  | SInt x, SInt y => mret (x <? y)
  | _, _ => raise TypeError
  end.

(** What [mark_code_as_used] returns: the updated instance, or [False]. *)
Inductive marked :=
| Instance (reg_code : row)
| False_.

Section RegistrationCodeController.
(** The value of [datetime.now()], as a timestamp. *)
Variable now : Z.

Definition verify_code (code : string) : Ctl (bool * scalar) :=
  try_except
    (codes ← base_controller.find_by_attributes RegistrationCodeModel
               {[ "code" := Scalar (SStr code); "is_used" := Scalar (SBool false) ]};
     match codes with
     | [] => mret (false, SNull)
     | reg_code :: _ =>
         expired ← date_lt (attr reg_code "expiration_date") (SInt now);
         if expired : bool then mret (false, SNull)
         else mret (true, attr reg_code "user_type")
     end)
    (λ _, Some (mret (false, SNull))).

Definition mark_code_as_used (code : string) : Ctl marked :=
  try_except
    (codes ← base_controller.find_by_attributes RegistrationCodeModel
               {[ "code" := Scalar (SStr code) ]};
     match codes with
     | [] => mret False_
     | reg_code :: _ =>
         updated ← base_controller.update_by_key RegistrationCodeModel
                     (attr reg_code "id") {[ "is_used" := SBool true ]};
         mret (Instance updated)
     end)
    (λ _, Some (mret False_)).

End RegistrationCodeController.
End registration_code_controller.

(** ** components/progress_bar.py *)

Module progress_bar.

Inductive signal :=
| progress_changed (value total : Z)
| label_changed (text : string)
| finished (result : string)
| error (message : string).

(** A worker function, seen through the three callables [run] hands it:
    it calls them in some order and then returns a result or raises. *)
Inductive job :=
| returns_ (result : string)
| raises_ (message : string)
| progress_callback (value total : Z) (next : job)
| label_callback (text : string) (next : job)
| is_running (next : bool → job).

Record ProgressWorker := {
  func : job;
  _is_running : bool;
  emitted : list signal
}.

Definition __init__ (func : job) : ProgressWorker :=
  {| func := func; _is_running := true; emitted := [] |}.

Definition stop (self : ProgressWorker) : ProgressWorker :=
  {| func := func self; _is_running := false; emitted := emitted self |}.

Definition emit (s : signal) (self : ProgressWorker) : ProgressWorker :=
  {| func := func self; _is_running := _is_running self; emitted := emitted self ++ [s] |}.

Definition _progress_callback (value total : Z) (self : ProgressWorker) : ProgressWorker :=
  emit (progress_changed value total) self.

Definition _label_callback (text : string) (self : ProgressWorker) : ProgressWorker :=
  emit (label_changed text) self.

(** One call made by the worker function; [lambda: self._is_running] reads
    the flag as it is at the time of the call.  [None] once the function
    has returned or raised. *)
Definition advance (t : job) (self : ProgressWorker) : option job * ProgressWorker :=
  match t with
  | returns_ result => (None, emit (finished result) self)
  | raises_ message => (None, emit (error message) self)
  | progress_callback value total next => (Some next, _progress_callback value total self)
  | label_callback text next => (Some next, _label_callback text self)
  | is_running next => (Some (next (_is_running self)), self)
  end.





(** [run] on the worker thread interleaved with [stop] on the UI thread:
    at each turn either the UI thread calls [stop] or the worker function
    makes its next call.  [answers] logs what each [is_running()] call
    returned. *)
Inductive turn := ui_stop | worker_step.

Record running := {
  worker : ProgressWorker;
  pending : option job;
  answers : list bool
}.

Definition start (self : ProgressWorker) : running :=
  {| worker := self; pending := Some (func self); answers := [] |}.

Definition take_turn (st : running) (t : turn) : running :=
  match t with
  | ui_stop => {| worker := stop (worker st); pending := pending st; answers := answers st |}
  | worker_step =>
      match pending st with
      | None => st
      | Some current =>
          let '(next, w) := advance current (worker st) in
          {| worker := w; pending := next;
             answers := match current with
                        | is_running _ => answers st ++ [_is_running (worker st)]
                        | _ => answers st
                        end |}
      end
  end.

Definition interleave (schedule : list turn) (st : running) : running :=
  foldl take_turn st schedule.


End progress_bar.


(** * Vocabulary of the properties *)

(** The row with primary key [id_], as [query.get] finds it. *)
Definition has_id (id_ : Z) (r : row) : bool := scalar_eqb (attr r "id") (SInt id_).

(** [session.query(self.model).filter(self.model.id == id_)]. *)
Definition by_id (id_ : Z) : Query :=
  query_filter session_query (Eq "id" (Scalar (SInt id_))).

(** The table after [UPDATE ... SET kwargs WHERE id = id_], each row
    tagged with whether the statement touched it. *)
Definition set_where_id (id_ : Z) (kwargs : gmap string scalar) (table : list row)
  : list (bool * row) :=
  map (λ r, if has_id id_ r then (true, kwargs ∪ r) else (false, r)) table.

(** Every keyword names an attribute of the model. *)
Definition valid_fields (model : Model) {V : Type} (kwargs : gmap string V) : bool :=
  forallb (hasattr model) (map fst (map_to_list kwargs)).

(** The expression [_apply_filters] adds for one filter: membership for a
    list, equality otherwise. *)
Definition filter_expression (key : string) (value : pyval) : predicate :=
  match value with
  | Seq _ => In_ key value
  | Scalar _ => Eq key value
  end.

(** A row matches the filters of [base_controller._apply_filters]: every
    filter on an attribute of the model holds (the others are skipped). *)
Definition matches_filters (model : Model) (filters : gmap string pyval) (r : row) : bool :=
  forallb (λ '(key, value), implb (hasattr model key) (holds (filter_expression key value) r))
          (map_to_list filters).

(** The rows [count] counts: those matching the filters (a row always
    carries a primary key in a stored table; [COUNT(id)] skips any that
    does not). *)
Definition counted (model : Model) (filters : gmap string pyval) (table : list row)
  : list row :=
  List.filter (λ r, negb (scalar_eqb (attr r "id") SNull))
    (List.filter (matches_filters model filters) table).

(** Every row of the table carries a primary key. *)
Definition keyed (table : list row) : Prop :=
  ∀ r, In r table → attr r "id" ≠ SNull.

(** A row matches the filters of [base._apply_filters], which skips none. *)
Definition matches_all_filters (filters : gmap string pyval) (r : row) : bool :=
  forallb (λ '(key, value), holds (filter_expression key value) r) (map_to_list filters).

(** The smallest number of pages of [per_page] rows that hold [total] rows. *)
Definition is_ceiling (total per_page pages : Z) : Prop :=
  (pages - 1) * per_page < total ≤ pages * per_page.

(** *** The operator dispatch, in the words of the specification *)

(** The six operators of [base_controller.find_by_attributes]. *)
Definition operator_expression (operator column : string) (value : pyval) : option predicate :=
  if String.eqb operator "like" then Some (Like column ("%" +:+ py_str value +:+ "%"))
  else if String.eqb operator "in" then Some (In_ column value)
  else if String.eqb operator "gt" then Some (Gt column value)
  else if String.eqb operator "lt" then Some (Lt column value)
  else if String.eqb operator "gte" then Some (Ge column value)
  else if String.eqb operator "lte" then Some (Le column value)
  else None.


(** What one keyword argument contributes: a key [field__operator] the
    expression of a recognised operator on an existing field, a key without
    separator an equality on an existing field, anything else nothing. *)
Definition contribution (operators : string → string → pyval → option predicate)
  (model : Model) (key : string) (value : pyval) : option predicate :=
  match split_dunder key with
  | [field; operator] =>
      if hasattr model field then operators operator field value else None
  | [name] => if hasattr model name then Some (Eq name value) else None
  | _ => None
  end.

(** A key is well formed when the separator cuts it into at most two
    parts. *)
Definition well_formed_key (key : string) : bool :=
  Nat.leb (List.length (split_dunder key)) 2.

Definition well_formed_keys {V : Type} (kwargs : gmap string V) : bool :=
  forallb (λ '(key, _), well_formed_key key) (map_to_list kwargs).

Definition contributions (operators : string → string → pyval → option predicate)
  (model : Model) (kwargs : gmap string pyval) : list predicate :=
  omap (λ '(key, value), contribution operators model key value) (map_to_list kwargs).

(** The rows satisfying the conjunction of a list of expressions. *)
Definition satisfying (clauses : list predicate) (table : list row) : list row :=
  List.filter (λ r, forallb (λ p, holds p r) clauses) table.

(** *** The password policy, in the words of the specification *)








(** *** Pages *)

(** The dictionary [paginate] returns. *)
Definition page_dict (items : list row) (total page per_page pages : Z) : gmap string pyobj :=
  <["items" := Rows items]> (<["total" := Int total]> (<["page" := Int page]>
  (<["per_page" := Int per_page]> (<["pages" := Int pages]> ∅)))).

(** The slice of [rows] a query with [OFFSET offset LIMIT per_page] returns. *)
Definition slice (offset per_page : Z) (rows : list row) : list row :=
  let skipped := drop (Z.to_nat offset) rows in
  if per_page <? 0 then skipped else take (Z.to_nat per_page) skipped.

(** The rows [base.paginate] slices: those matching the filters, sorted
    when [order_by] is set. *)
Definition in_order (order_by : option string) (d : SortDirection) (rows : list row)
  : list row :=
  match base.order_by_truthy order_by with
  | Some column => sort_rows (row_leb column d) rows
  | None => rows
  end.

(** [getattr(self.model, options.order_by)] succeeds, when it is evaluated. *)
Definition valid_order_by (model : Model) (order_by : option string) : bool :=
  match base.order_by_truthy order_by with
  | Some column => hasattr model column
  | None => true
  end.

(** *** A small table of users for the examples *)

Module example.
Import user_model.

Definition ann : row :=
  <["id" := SInt 1]> (<["username" := SStr "ann"]> (<["email" := SStr "ann@example.org"]> ∅)).

Definition bob : row :=
  <["id" := SInt 2]> (<["username" := SStr "bob"]> (<["email" := SStr "bob@example.org"]> ∅)).

Definition users : list row := [ann; bob].

End example.

(** * Vocabulary of the further properties *)

(** The operators of [base_controller.search]. *)
Definition search_operator_expression (operator column : string) (value : pyval)
  : option predicate :=
  if String.eqb operator "like" then Some (Like column ("%" +:+ py_str value +:+ "%"))
  else if String.eqb operator "lt" then Some (Lt column value)
  else if String.eqb operator "gt" then Some (Gt column value)
  else if String.eqb operator "eq" then Some (Eq column value)
  else None.

(** The rows a query returns of [rows] once an optional offset and an
    optional limit are applied; [None] and [0] both leave the rows alone. *)
Definition window (limit offset : option Z) (rows : list row) : list row :=
  let rows := match int_truthy offset with
              | Some n => drop (Z.to_nat n) rows
              | None => rows
              end in
  match int_truthy limit with
  | Some n => if n <? 0 then rows else take (Z.to_nat n) rows
  | None => rows
  end.

(** [search] and [find_by_attributes] read the key alike: it has no
    operator, or one that both know ([like], [lt], [gt]) or neither does. *)
Definition same_reading (key : string) : bool :=
  match split_dunder key with
  | [_; operator] =>
      negb (String.eqb operator "in" || String.eqb operator "gte"
            || String.eqb operator "lte" || String.eqb operator "eq")
  | _ => true
  end.



(** The items of a page dictionary. *)
Definition items_of (result : outcome (gmap string pyobj) * Session) : list row :=
  match result.1 with
  | Returns d => match d !! "items" with Some (Rows items) => items | _ => [] end
  | Raises _ => []
  end.

(** The rows with a given value under [id], whatever its type. *)
Definition has_key (key : scalar) (r : row) : bool := scalar_eqb (attr r "id") key.

(** The rows of a table whose [column] holds the string [value]. *)
Definition with_value (column value : string) (table : list row) : list row :=
  List.filter (λ r, scalar_eqb (attr r column) (SStr value)) table.

(** The table after [UPDATE ... SET kwargs WHERE id = key], each row tagged
    with whether the statement touched it. *)
Definition set_where_key (key : scalar) (kwargs : gmap string scalar) (table : list row)
  : list (bool * row) :=
  map (λ r, if has_key key r then (true, kwargs ∪ r) else (false, r)) table.

(** The row [query.get(key)] finds. *)
Definition row_of_key (key : scalar) (table : list row) : option row :=
  match key with
  | SNull => None
  | _ => List.find (has_key key) table
  end.





(** * Properties *)

(** ** Queries *)

Lemma selects_by_id id_ r : selects (by_id id_) r = has_id id_ r.
Proof. unfold selects, by_id, has_id. simpl. apply andb_true_r. Qed.

Lemma matching_by_id id_ table : matching (by_id id_) table = List.filter (has_id id_) table.
Proof. apply List.filter_ext. intros r. apply selects_by_id. Qed.

Lemma has_id_attr id_ r : has_id id_ r = true ↔ attr r "id" = SInt id_.
Proof. unfold has_id, scalar_eqb. apply bool_decide_eq_true. Qed.

Lemma find_none_iff {A : Type} (f : A → bool) (l : list A) :
  List.find f l = None ↔ ¬ ∃ x, In x l ∧ f x = true.
Proof.
  split.
  - intros Hnone [x [Hin Hx]]. pose proof (List.find_none f l Hnone x Hin). congruence.
  - intros Hno. destruct (List.find f l) as [x|] eqn:E; [|done].
    exfalso. apply Hno. exists x. apply List.find_some in E. tauto.
Qed.

Lemma filter_nil_iff {A : Type} (f : A → bool) (l : list A) :
  List.filter f l = [] ↔ List.find f l = None.
Proof.
  induction l as [|x l IH]; simpl; [done|].
  destruct (f x); [split; discriminate | exact IH].
Qed.

(** ** Sessions *)

(** Every method of the controllers is a [try ... finally: session.close()],
    so it leaves the session closed whatever state it found it in; the
    properties below start from a closed session. *)
Lemma try_finally_closes {A : Type} (body : Ctl A) (s : Session) :
  (try_finally body session_close s).2 = closed (committed (body s).2).
Proof. unfold try_finally, session_close. destruct (body s) as [r s']. reflexivity. Qed.

Lemma closed_inj table table' : closed table = closed table' → table = table'.
Proof. intros H. injection H as H _. exact H. Qed.

(** ** [get_by_id] *)

Lemma get_by_id_closed id_ table :
  base_controller.get_by_id id_ (closed table) =
  (match List.find (has_id id_) table with
   | Some r => Returns r
   | None => Raises RecordNotFoundError
   end, closed table).
Proof.
  unfold base_controller.get_by_id, try_finally, try_except, mbind, ctl_bind, query_get.
  simpl. fold (has_id id_).
  destruct (List.find (has_id id_) table); reflexivity.
Qed.

(** C3. [get_by_id(id_)] raises [RecordNotFoundError] exactly when no row
    has primary key [id_]; otherwise it returns a row of the table with
    that primary key (the one [query.get] finds); in both cases the session
    is left closed on the same stored table.  [base.py] and
    [base_controller.py] behave alike. *)
Theorem get_by_id_found_or_raises (id_ : Z) (table : list row) :
  let '(result, session) := base_controller.get_by_id id_ (closed table) in
  base.get_by_id id_ (closed table) = (result, session)
  ∧ session = closed table
  ∧ (result = Raises RecordNotFoundError ↔ ¬ ∃ r, In r table ∧ attr r "id" = SInt id_)
  ∧ ((∃ r, In r table ∧ attr r "id" = SInt id_) →
     ∃ r, result = Returns r ∧ In r table ∧ attr r "id" = SInt id_
          ∧ List.find (has_id id_) table = Some r).
Proof.
  change (base.get_by_id id_ (closed table)) with (base_controller.get_by_id id_ (closed table)).
  rewrite get_by_id_closed.
  do 2 (split; [reflexivity|]).
  destruct (List.find (has_id id_) table) as [r|] eqn:Efind.
  - pose proof (List.find_some _ _ Efind) as [Hin Hid%has_id_attr].
    split.
    + split; [discriminate|]. intros Hno. exfalso. apply Hno. eauto.
    + intros _. exists r. auto.
  - apply find_none_iff in Efind.
    assert (¬ ∃ r, In r table ∧ attr r "id" = SInt id_) as Hno.
    { intros [r [Hin Hid%has_id_attr]]. apply Efind. eauto. }
    split; [tauto|]. intros Hex. contradiction.
Qed.

(** ** [create] *)

Lemma insert_violates_iff model table instance :
  insert_violates model table instance = true
  ↔ ∃ r, In r table ∧ clash model (with_primary_key table instance) r = true.
Proof. unfold insert_violates. apply List.existsb_exists. Qed.

Lemma create_closed model kwargs table :
  base_controller.create model kwargs (closed table) =
  if negb (valid_fields model kwargs) then (Raises TypeError, closed table)
  else if insert_violates model table kwargs
  then (Raises RecordAlreadyExistsError, closed table)
  else (Returns (with_primary_key table kwargs),
        closed (table ++ [with_primary_key table kwargs])).
Proof.
  unfold base_controller.create, try_finally, try_except, mbind, ctl_bind, model_new,
    valid_fields.
  destruct (forallb (hasattr model) (map fst (map_to_list kwargs))); [|reflexivity].
  unfold mret, ctl_ret, session_add, session_commit, the_instance, session_rollback, raise,
    session_close.
  simpl.
  destruct (insert_violates model table kwargs); simpl; [reflexivity|].
  rewrite bool_decide_eq_true_2 by reflexivity. reflexivity.
Qed.



(** ** [update] *)

Lemma filter_negb_nil_iff {A : Type} (f : A → bool) (l : list A) :
  List.filter (λ x, negb (f x)) l = [] ↔ forallb f l = true.
Proof.
  induction l as [|x l IH]; simpl; [done|].
  destruct (f x); simpl; [exact IH | split; discriminate].
Qed.

Lemma length_matching_zero (q : Query) (table : list row) :
  (Z.of_nat (List.length (matching q table)) =? 0) =
  match List.find (selects q) table with None => true | Some _ => false end.
Proof.
  unfold matching.
  destruct (List.find (selects q) table) eqn:E.
  - destruct (List.filter (selects q) table) eqn:F; [|reflexivity].
    apply filter_nil_iff in F. congruence.
  - apply filter_nil_iff in E. rewrite E. reflexivity.
Qed.

Lemma find_ext {A : Type} (f g : A → bool) (l : list A) :
  (∀ x, f x = g x) → List.find f l = List.find g l.
Proof. intros H. induction l as [|x l IH]; simpl; [done|]. rewrite H, IH. done. Qed.

Lemma update_rows_by_id id_ kwargs table :
  map (λ r, if selects (by_id id_) r then (true, kwargs ∪ r) else (false, r)) table
  = set_where_id id_ kwargs table.
Proof. unfold set_where_id. apply map_ext. intros r. rewrite selects_by_id. done. Qed.

Lemma update_closed model id_ kwargs table :
  base_controller.update model id_ kwargs (closed table) =
  if negb (valid_fields model kwargs) then (Raises ValueError, closed table)
  else if update_violates model (set_where_id id_ kwargs table)
  then (Raises SQLAlchemyError, closed table)
  else match List.find (has_id id_) table with
       | None => (Raises RecordNotFoundError, closed table)
       | Some _ =>
           let table' := map snd (set_where_id id_ kwargs table) in
           (match List.find (has_id id_) table' with
            | Some r => Returns r
            | None => Raises RecordNotFoundError
            end, closed table')
       end.
Proof.
  unfold base_controller.update, valid_fields.
  fold (by_id id_).
  destruct (List.filter _ (map fst (map_to_list kwargs))) as [|bad rest] eqn:Ebad.
  - apply filter_negb_nil_iff in Ebad. rewrite Ebad. simpl negb. cbv iota.
    unfold try_finally, try_except, mbind, ctl_bind, query_update.
    cbn [working closed committed new deleted flushed].
    rewrite update_rows_by_id.
    destruct (update_violates model (set_where_id id_ kwargs table)); [reflexivity|].
    rewrite length_matching_zero, (find_ext _ _ _ (selects_by_id id_)).
    destruct (List.find (has_id id_) table) eqn:Efind; [|reflexivity].
    unfold session_commit. cbn [working closed committed new deleted flushed flush_new flush_deleted foldl].
    change {| committed := ?t; working := ?t; new := []; deleted := []; flushed := [] |}
      with (closed t).
    rewrite get_by_id_closed.
    destruct (List.find (has_id id_) (map snd (set_where_id id_ kwargs table)));
      reflexivity.
  - assert (forallb (hasattr model) (map fst (map_to_list kwargs)) = false) as ->.
    { destruct (forallb _ _) eqn:E; [|done].
      apply filter_negb_nil_iff in E. congruence. }
    reflexivity.
Qed.


Lemma set_where_id_rows id_ kwargs table :
  map snd (set_where_id id_ kwargs table)
  = map (λ r, if has_id id_ r then kwargs ∪ r else r) table.
Proof.
  unfold set_where_id. rewrite List.map_map. apply map_ext.
  intros r. destruct (has_id id_ r); reflexivity.
Qed.



Lemma find_absent id_ table :
  (¬ ∃ r, In r table ∧ attr r "id" = SInt id_) → List.find (has_id id_) table = None.
Proof.
  intros Hno. apply find_none_iff. intros [r [Hin Hr%has_id_attr]]. apply Hno. eauto.
Qed.





(** A keyword that moves the primary key: the change is committed, and the
    look-up of the old key that follows raises [RecordNotFoundError]. *)
Example update_moving_primary_key :
  base_controller.update user_model.UserModel 2 {[ "id" := SInt 5 ]} (closed example.users)
  = (Raises RecordNotFoundError, closed [example.ann; <["id" := SInt 5]> example.bob]).
Proof. vm_compute. reflexivity. Qed.


(** ** [delete] *)

Lemma delete_closed model id_ table :
  base_controller.delete model id_ (closed table) =
  match List.find (has_id id_) table with
  | None => (Raises RecordNotFoundError, closed table)
  | Some _ => (Returns true, closed (List.filter (λ r, negb (has_id id_ r)) table))
  end.
Proof.
  unfold base_controller.delete. fold (by_id id_).
  unfold try_finally, try_except, mbind, ctl_bind, query_delete.
  cbn [working closed committed new deleted flushed].
  rewrite length_matching_zero, (find_ext _ _ _ (selects_by_id id_)).
  destruct (List.find (has_id id_) table); [|reflexivity].
  unfold session_commit.
  cbn [working closed committed new deleted flushed flush_new flush_deleted foldl].
  unfold mret, ctl_ret, session_close. cbn [committed]. unfold closed.
  rewrite (List.filter_ext _ (λ r, negb (has_id id_ r)));
    [reflexivity | intros r; rewrite selects_by_id; reflexivity].
Qed.

Lemma base_delete_closed model id_ table :
  base.delete model id_ (closed table) =
  match List.find (has_id id_) table with
  | None => (Returns false, closed table)
  | Some _ => (Returns true, closed (List.filter (λ r, negb (has_id id_ r)) table))
  end.
Proof.
  unfold base.delete, try_finally at 1, try_except at 1, mbind, ctl_bind.
  change (base.get_by_id id_) with (base_controller.get_by_id id_).
  rewrite get_by_id_closed.
  destruct (List.find (has_id id_) table) as [r|] eqn:Efind; [|reflexivity].
  apply List.find_some in Efind as [_ Hr%has_id_attr].
  unfold session_delete, session_commit.
  cbn [working closed committed new deleted flushed flush_new flush_deleted foldl app].
  unfold mret, ctl_ret, session_close. cbn [committed]. unfold closed.
  rewrite (List.filter_ext _ (λ r, negb (has_id id_ r))); [reflexivity|].
  intros r'. unfold same_key, has_id, scalar_eqb. rewrite Hr. simpl.
  f_equal. apply bool_decide_ext. split; congruence.
Qed.

(** C8 without the amendment does not hold: on a table with no user 7,
    [delete] of [base.py] returns [False] where [delete] of
    [base_controller.py] raises [RecordNotFoundError]. *)
Lemma delete_missing_differs :
  base.delete user_model.UserModel 7 (closed example.users)
  = (Returns false, closed example.users)
  ∧ base_controller.delete user_model.UserModel 7 (closed example.users)
    = (Raises RecordNotFoundError, closed example.users).
Proof. vm_compute. split; reflexivity. Qed.

(** C8, as amended.  When a row with primary key [id_] exists, both
    [delete] methods return [True] and leave the same stored table, the
    rows with another primary key.  When none exists, both leave the stored
    table unchanged, but [base.py] returns [False] while
    [base_controller.py] raises [RecordNotFoundError]. *)
Theorem delete_agree_when_found (model : Model) (id_ : Z) (table : list row) :
  let '(result, session) := base.delete model id_ (closed table) in
  let '(result', session') := base_controller.delete model id_ (closed table) in
  session = session'
  ∧ ((∃ r, In r table ∧ attr r "id" = SInt id_) →
     result = Returns true ∧ result' = Returns true
     ∧ session = closed (List.filter (λ r, negb (has_id id_ r)) table))
  ∧ ((¬ ∃ r, In r table ∧ attr r "id" = SInt id_) →
     result = Returns false ∧ result' = Raises RecordNotFoundError
     ∧ session = closed table).
Proof.
  rewrite delete_closed, base_delete_closed.
  destruct (List.find (has_id id_) table) as [r|] eqn:Efind.
  - split; [reflexivity|]. split; [auto|].
    intros Hno. rewrite find_absent in Efind by exact Hno. discriminate.
  - split; [reflexivity|]. split; [|auto].
    intros [r [Hin Hr%has_id_attr]].
    pose proof (List.find_none _ _ Efind r Hin). congruence.
Qed.

Lemma delete_agree_when_found_witness :
  base.delete user_model.UserModel 1 (closed example.users)
  = (Returns true, closed [example.bob])
  ∧ base_controller.delete user_model.UserModel 1 (closed example.users)
    = (Returns true, closed [example.bob]).
Proof.
  pose proof (delete_agree_when_found user_model.UserModel 1 example.users) as H.
  destruct (base.delete _ _ _) as [r s], (base_controller.delete _ _ _) as [r' s'].
  destruct H as (<- & H & _).
  destruct H as (-> & -> & ->).
  { exists example.ann. split; [left; reflexivity | reflexivity]. }
  split; reflexivity.
Defined.

(** ** Filters, [count] and [exists] *)

Lemma selects_query_filter q p r : selects (query_filter q p) r = selects q r && holds p r.
Proof. unfold selects, query_filter. simpl. rewrite forallb_app. simpl. rewrite andb_true_r. done. Qed.

Lemma selects_session_query r : selects session_query r = true.
Proof. reflexivity. Qed.

Lemma selects_apply_filters model q filters r :
  selects (base_controller._apply_filters model q filters) r
  = selects q r && matches_filters model filters r.
Proof.
  unfold base_controller._apply_filters, matches_filters.
  generalize (map_to_list filters) as items. intros items. revert q.
  induction items as [|[key value] items IH]; intros q; simpl.
  - rewrite andb_true_r. reflexivity.
  - rewrite IH, andb_assoc. f_equal.
    destruct (hasattr model key); simpl; [|rewrite andb_true_r; reflexivity].
    destruct value; rewrite selects_query_filter; reflexivity.
Qed.

Lemma matches_filters_falsy model (filters : gmap string pyval) r :
  dict_truthy filters = false → matches_filters model filters r = true.
Proof.
  unfold dict_truthy, matches_filters. destruct (map_to_list filters); [reflexivity | discriminate].
Qed.

(** The query [count] and [paginate] start from. *)
Lemma selects_filtered model filters r :
  selects (if dict_truthy filters
           then base_controller._apply_filters model session_query filters
           else session_query) r
  = matches_filters model filters r.
Proof.
  destruct (dict_truthy filters) eqn:E.
  - rewrite selects_apply_filters. reflexivity.
  - rewrite matches_filters_falsy by exact E. reflexivity.
Qed.

Lemma matching_filtered model filters table :
  matching (if dict_truthy filters
            then base_controller._apply_filters model session_query filters
            else session_query) table
  = List.filter (matches_filters model filters) table.
Proof. apply List.filter_ext. intros r. apply selects_filtered. Qed.

Lemma count_closed model filters table :
  base_controller.count model filters (closed table)
  = (Returns (Z.of_nat (List.length (counted model filters table))), closed table).
Proof.
  unfold base_controller.count, try_finally, query_scalar_count, counted.
  cbn [working closed]. rewrite matching_filtered. reflexivity.
Qed.

Lemma exists_closed model filters table :
  base_controller.exists_ model filters (closed table)
  = (Returns (0 <? Z.of_nat (List.length (counted model filters table))), closed table).
Proof.
  unfold base_controller.exists_, mbind, ctl_bind. rewrite count_closed. reflexivity.
Qed.

Lemma counted_keyed model filters table :
  keyed table → counted model filters table = List.filter (matches_filters model filters) table.
Proof.
  intros Hkeyed. unfold counted.
  rewrite (List.filter_ext_in _ (λ _, true)).
  - induction (List.filter _ table) as [|r rows IH]; simpl; [reflexivity | rewrite IH; reflexivity].
  - intros r [Hin _]%List.filter_In. apply negb_true_iff, bool_decide_eq_false.
    apply Hkeyed, Hin.
Qed.

(** C9. [exists( **filters )] returns [True] exactly when
    [count( **filters )] returns a number greater than 0; [count] returns
    the number of rows matching the filters (on a table whose rows all
    carry their primary key, as stored tables do); both always return, and
    leave the session closed on the same stored table. *)
Theorem exists_iff_count_positive (model : Model) (filters : gmap string pyval)
  (table : list row) :
  let '(count_result, session) := base_controller.count model filters (closed table) in
  let '(exists_result, session') := base_controller.exists_ model filters (closed table) in
  session = closed table ∧ session' = closed table
  ∧ ∃ (n : Z) (b : bool),
      count_result = Returns n ∧ exists_result = Returns b
      ∧ (b = true ↔ n > 0)
      ∧ n = Z.of_nat (List.length (counted model filters table))
      ∧ (keyed table →
         n = Z.of_nat (List.length (List.filter (matches_filters model filters) table))).
Proof.
  rewrite count_closed, exists_closed.
  split; [reflexivity|]. split; [reflexivity|].
  eexists _, _. split; [reflexivity|]. split; [reflexivity|].
  split; [rewrite Z.ltb_lt; lia|].
  split; [reflexivity|].
  intros Hkeyed. rewrite counted_keyed by exact Hkeyed. reflexivity.
Qed.

(** ** [paginate] *)

Lemma ordering_apply_filters model q filters :
  ordering (base_controller._apply_filters model q filters) = ordering q.
Proof.
  unfold base_controller._apply_filters.
  generalize (map_to_list filters) as items. intros items. revert q.
  induction items as [|[key value] items IH]; intros q; simpl; [reflexivity|].
  rewrite IH. destruct (hasattr model key); [destruct value|]; reflexivity.
Qed.

Lemma select_slice q offset per_page table :
  ordering q = None →
  select (query_limit (query_offset q offset) per_page) table
  = slice offset per_page (matching q table).
Proof.
  intros Hord. unfold select, apply_limit, apply_offset, ordered, slice. simpl.
  rewrite Hord. reflexivity.
Qed.

Lemma paginate_closed model page per_page filters table :
  base_controller.paginate model page per_page filters (closed table) =
  let rows := List.filter (matches_filters model filters) table in
  let total := Z.of_nat (List.length rows) in
  if per_page =? 0 then (Raises ZeroDivisionError, closed table)
  else (Returns (page_dict (slice ((page - 1) * per_page) per_page rows) total page per_page
                   ((total + per_page - 1) `div` per_page)),
        closed table).
Proof.
  unfold base_controller.paginate, try_finally, mbind, ctl_bind, query_count, query_all,
    floordiv.
  cbn [working closed].
  rewrite select_slice, matching_filtered.
  2: { destruct (dict_truthy filters); [apply ordering_apply_filters | reflexivity]. }
  cbv zeta. destruct (per_page =? 0); reflexivity.
Qed.

Lemma base_apply_filters_run model q (filters : gmap string pyval) s :
  base._apply_filters model q filters s =
  if valid_fields model filters
  then (Returns (foldl (λ q '(key, value), query_filter q (filter_expression key value))
                       q (map_to_list filters)), s)
  else (Raises AttributeError, s).
Proof.
  unfold base._apply_filters, valid_fields.
  generalize (map_to_list filters) as items. intros items. revert q.
  induction items as [|[key value] items IH]; intros q; simpl; [reflexivity|].
  unfold mbind, ctl_bind, getattr.
  destruct (hasattr model key); simpl.
  - destruct value; simpl; apply IH.
  - destruct value; reflexivity.
Qed.

Lemma selects_all_filters q (items : list (string * pyval)) r :
  selects (foldl (λ q '(key, value), query_filter q (filter_expression key value)) q items) r
  = selects q r && forallb (λ '(key, value), holds (filter_expression key value) r) items.
Proof.
  revert q. induction items as [|[key value] items IH]; intros q; simpl.
  - rewrite andb_true_r. reflexivity.
  - rewrite IH, selects_query_filter, andb_assoc. reflexivity.
Qed.

Lemma ordering_all_filters q (items : list (string * pyval)) :
  ordering (foldl (λ q '(key, value), query_filter q (filter_expression key value)) q items)
  = ordering q.
Proof.
  revert q. induction items as [|[key value] items IH]; intros q; simpl; [reflexivity|].
  rewrite IH. reflexivity.
Qed.

Lemma select_ordered_slice q column d offset per_page table :
  select (query_limit (query_offset (query_order_by q column d) offset) per_page) table
  = slice offset per_page (sort_rows (row_leb column d) (matching q table)).
Proof. reflexivity. Qed.

Lemma valid_fields_falsy model (filters : gmap string pyval) :
  dict_truthy filters = false → valid_fields model filters = true.
Proof.
  unfold dict_truthy, valid_fields. destruct (map_to_list filters); [reflexivity | discriminate].
Qed.

Lemma base_paginate_closed model (options : utils.PaginationOptions) table :
  base.paginate model options (closed table) =
  let rows := List.filter (matches_all_filters (utils.filters options)) table in
  let total := Z.of_nat (List.length rows) in
  let page := utils.page options in
  let per_page := utils.per_page options in
  if negb (valid_fields model (utils.filters options)) then (Raises AttributeError, closed table)
  else if negb (valid_order_by model (utils.order_by options))
  then (Raises AttributeError, closed table)
  else if per_page =? 0 then (Raises ZeroDivisionError, closed table)
  else (Returns (page_dict
                   (slice ((page - 1) * per_page) per_page
                      (in_order (utils.order_by options) (utils.direction options) rows))
                   total page per_page ((total + per_page - 1) `div` per_page)),
        closed table).
Proof.
  cbv zeta.
  unfold base.paginate, try_finally, valid_order_by, in_order.
  unfold mbind at 1, ctl_bind at 1.
  assert ((if dict_truthy (utils.filters options)
           then base._apply_filters model session_query (utils.filters options)
           else mret session_query) (closed table)
          = base._apply_filters model session_query (utils.filters options) (closed table))
    as ->.
  { destruct (dict_truthy (utils.filters options)) eqn:E; [reflexivity|].
    rewrite base_apply_filters_run, valid_fields_falsy by exact E.
    unfold dict_truthy in E. destruct (map_to_list (utils.filters options)); [reflexivity|discriminate]. }
  rewrite base_apply_filters_run.
  destruct (valid_fields model (utils.filters options)); simpl negb; cbv iota; [|reflexivity].
  set (q := foldl _ session_query _).
  assert (matching q table = List.filter (matches_all_filters (utils.filters options)) table)
    as Hmatch.
  { apply List.filter_ext. intros r. unfold q. rewrite selects_all_filters. reflexivity. }
  assert (ordering q = None) as Hord by (unfold q; apply ordering_all_filters).
  unfold mbind, ctl_bind, query_count, query_all, floordiv, getattr.
  cbn [working closed].
  destruct (base.order_by_truthy (utils.order_by options)) as [column|].
  - destruct (hasattr model column); simpl negb; cbv iota; [|reflexivity].
    cbn [mret ctl_ret]. rewrite select_ordered_slice. cbn [working closed].
    rewrite Hmatch. destruct (utils.per_page options =? 0); reflexivity.
  - cbn [mret ctl_ret negb]. rewrite select_slice by exact Hord. cbn [working closed].
    rewrite Hmatch. destruct (utils.per_page options =? 0); reflexivity.
Qed.


Lemma lookup_page_dict items total page per_page pages :
  let d := page_dict items total page per_page pages in
  d !! "items" = Some (Rows items) ∧ d !! "total" = Some (Int total)
  ∧ d !! "page" = Some (Int page) ∧ d !! "per_page" = Some (Int per_page)
  ∧ d !! "pages" = Some (Int pages).
Proof. cbv zeta. unfold page_dict. repeat split; by simplify_map_eq. Qed.

Lemma slice_positive offset per_page rows :
  1 ≤ per_page →
  slice offset per_page rows = take (Z.to_nat per_page) (drop (Z.to_nat offset) rows).
Proof.
  intros Hpp. unfold slice.
  destruct (per_page <? 0) eqn:E; [|reflexivity]. apply Z.ltb_lt in E. lia.
Qed.

Lemma ceiling_div total per_page :
  0 ≤ total → 1 ≤ per_page → is_ceiling total per_page ((total + per_page - 1) `div` per_page).
Proof.
  intros Ht Hpp. unfold is_ceiling.
  pose proof (Z.div_mod (total + per_page - 1) per_page ltac:(lia)) as Hdm.
  pose proof (Z.mod_pos_bound (total + per_page - 1) per_page ltac:(lia)) as Hmod.
  nia.
Qed.







Lemma validate_pagination_raises page per_page :
  base._validate_pagination page per_page = Raises ValueError ↔ page < 1 ∨ per_page < 1.
Proof.
  unfold base._validate_pagination.
  destruct (page <? 1) eqn:Ep; [apply Z.ltb_lt in Ep; tauto|].
  destruct (per_page <? 1) eqn:Epp; [apply Z.ltb_lt in Epp; tauto|].
  apply Z.ltb_ge in Ep, Epp. split; [discriminate | lia].
Qed.

(** C10. For any integer [page] and positive [per_page], [paginate]
    returns its dictionary and never raises [ValueError]: the items come
    from the query with offset [(page - 1) * per_page] and limit
    [per_page], whatever the sign of the offset.  For [page < 1] that
    offset is negative (the query then skips nothing), while
    [_validate_pagination] would raise [ValueError]: it raises exactly for
    [page < 1] or [per_page < 1], and [paginate] does not call it.
    [paginate] of [base.py] does not raise [ValueError] either. *)
Theorem paginate_does_not_validate (model : Model) (page per_page : Z)
  (filters : gmap string pyval) (table : list row) :
  0 < per_page →
  let query := if dict_truthy filters
               then base_controller._apply_filters model session_query filters
               else session_query in
  let items_query := query_limit (query_offset query ((page - 1) * per_page)) per_page in
  (∃ result,
     base_controller.paginate model page per_page filters (closed table)
     = (Returns result, closed table)
     ∧ result !! "items" = Some (Rows (select items_query table))
     ∧ result !! "page" = Some (Int page))
  ∧ offset_ items_query = Some ((page - 1) * per_page)
  ∧ (page < 1 →
     (page - 1) * per_page < 0
     ∧ base._validate_pagination page per_page = Raises ValueError
     ∧ select items_query table
       = take (Z.to_nat per_page) (List.filter (matches_filters model filters) table))
  ∧ (∀ p pp, base._validate_pagination p pp = Raises ValueError ↔ p < 1 ∨ pp < 1)
  ∧ (∀ order_by direction,
       (base.paginate model
          {| utils.page := page; utils.per_page := per_page; utils.order_by := order_by;
             utils.direction := direction; utils.filters := filters |} (closed table)).1
       ≠ Raises ValueError).
Proof.
  intros Hpp query items_query.
  assert ((per_page =? 0) = false) as Hnz by (apply Z.eqb_neq; lia).
  assert (ordering query = None) as Hord.
  { unfold query. destruct (dict_truthy filters); [apply ordering_apply_filters | reflexivity]. }
  assert (select items_query table
          = slice ((page - 1) * per_page) per_page
              (List.filter (matches_filters model filters) table)) as Hselect.
  { unfold items_query. rewrite select_slice by exact Hord.
    unfold query. rewrite matching_filtered. reflexivity. }
  split; [|split; [|split; [|split]]].
  - eexists. rewrite paginate_closed. cbv zeta. rewrite Hnz.
    split; [reflexivity|]. rewrite Hselect. split; apply lookup_page_dict.
  - reflexivity.
  - intros Hpage. split; [nia|]. split.
    + apply validate_pagination_raises. lia.
    + rewrite Hselect, slice_positive by lia.
      replace (Z.to_nat ((page - 1) * per_page)) with 0%nat by nia. reflexivity.
  - apply validate_pagination_raises.
  - intros order_by direction. rewrite base_paginate_closed. cbv zeta.
    cbn [utils.filters utils.order_by utils.per_page utils.page utils.direction].
    rewrite Hnz.
    destruct (valid_fields model filters); [|discriminate].
    destruct (valid_order_by model order_by); discriminate.
Qed.

Lemma paginate_does_not_validate_witness :
  (∃ result,
     base_controller.paginate user_model.UserModel (-3) 1 ∅ (closed example.users)
     = (Returns result, closed example.users)
     ∧ result !! "items" = Some (Rows [example.ann])
     ∧ result !! "page" = Some (Int (-3)))
  ∧ base._validate_pagination (-3) 1 = Raises ValueError.
Proof.
  destruct (paginate_does_not_validate user_model.UserModel (-3) 1 ∅ example.users
              ltac:(lia))
    as ((result & Hrun & Hitems & Hpage) & _ & Hneg & _).
  split.
  - exists result. split; [exact Hrun|]. split; [exact Hitems | exact Hpage].
  - apply Hneg. lia.
Defined.

(** ** [find_by_attributes] *)

Lemma split_dunder_nonempty key : split_dunder key ≠ [].
Proof.
  destruct key as [|c rest]; simpl; [discriminate|].
  destruct rest as [|d rest'].
  - simpl. discriminate.
  - destruct (Ascii.eqb c "_" && Ascii.eqb d "_"); [discriminate|].
    destruct (split_dunder (String d rest')); discriminate.
Qed.

Lemma split_dunder_plain key : contains_dunder key = false → split_dunder key = [key].
Proof.
  induction key as [|c rest IH]; [reflexivity|].
  destruct rest as [|d rest'].
  - reflexivity.
  - intros Hc. change (contains_dunder (String c (String d rest')))
      with ((Ascii.eqb c "_" && Ascii.eqb d "_") || contains_dunder (String d rest')) in Hc.
    apply orb_false_iff in Hc as [Hcut Hrest].
    change (split_dunder (String c (String d rest')))
      with (match (if Ascii.eqb c "_" && Ascii.eqb d "_"
                   then Some (split_dunder rest') else None) with
            | Some parts => EmptyString :: parts
            | None => match split_dunder (String d rest') with
                      | part :: parts => String c part :: parts
                      | [] => [String c EmptyString]
                      end
            end).
    rewrite Hcut, (IH Hrest). reflexivity.
Qed.

Lemma split_dunder_cut key :
  contains_dunder key = true → (2 <= List.length (split_dunder key))%nat.
Proof.
  induction key as [|c rest IH]; [discriminate|].
  destruct rest as [|d rest'].
  - discriminate.
  - intros Hc. change (contains_dunder (String c (String d rest')))
      with ((Ascii.eqb c "_" && Ascii.eqb d "_") || contains_dunder (String d rest')) in Hc.
    change (split_dunder (String c (String d rest')))
      with (match (if Ascii.eqb c "_" && Ascii.eqb d "_"
                   then Some (split_dunder rest') else None) with
            | Some parts => EmptyString :: parts
            | None => match split_dunder (String d rest') with
                      | part :: parts => String c part :: parts
                      | [] => [String c EmptyString]
                      end
            end).
    destruct (Ascii.eqb c "_" && Ascii.eqb d "_").
    + pose proof (split_dunder_nonempty rest').
      destruct (split_dunder rest'); [contradiction | simpl; lia].
    + simpl in Hc. specialize (IH Hc).
      destruct (split_dunder (String d rest')); simpl in *; lia.
Qed.

(** A loop that appends what each item gives, and raises [ValueError] at
    the first item that is not well formed. *)
Lemma for_each_collect {A : Type} (body : list predicate → A → Ctl (list predicate))
  (ok : A → bool) (give : A → option predicate) (items : list A) :
  (∀ acc x s, ok x = true → body acc x s = (Returns (acc ++ option_list (give x)), s)) →
  (∀ acc x s, ok x = false → body acc x s = (Raises ValueError, s)) →
  ∀ acc s,
    for_each items acc body s
    = if forallb ok items then (Returns (acc ++ omap give items), s)
      else (Raises ValueError, s).
Proof.
  intros Hok Hbad. induction items as [|x items IH]; intros acc s; simpl.
  - rewrite app_nil_r. reflexivity.
  - unfold mbind, ctl_bind. destruct (ok x) eqn:Ex; simpl.
    + rewrite (Hok _ _ _ Ex), IH. rewrite <- app_assoc.
      destruct (give x); reflexivity.
    + rewrite (Hbad _ _ _ Ex). reflexivity.
Qed.

Lemma select_and clauses table :
  select (query_filter session_query (And clauses)) table = satisfying clauses table.
Proof.
  unfold select, apply_limit, apply_offset, ordered, matching, satisfying. simpl.
  apply List.filter_ext. intros r. unfold selects. simpl. apply andb_true_r.
Qed.

Lemma find_by_attributes_closed model kwargs table :
  base_controller.find_by_attributes model kwargs (closed table) =
  if well_formed_keys kwargs
  then (Returns (satisfying (contributions operator_expression model kwargs) table),
        closed table)
  else (Raises ValueError, closed table).
Proof.
  unfold base_controller.find_by_attributes, try_finally, well_formed_keys, contributions.
  unfold mbind at 1, ctl_bind at 1.
  rewrite (for_each_collect _ (λ '(key, _), well_formed_key key)
             (λ '(key, value), contribution operator_expression model key value)).
  - destruct (forallb _ _); [|reflexivity].
    unfold query_all. cbn [working closed app]. rewrite select_and. reflexivity.
  - intros acc [key value] s Hok. unfold well_formed_key, contribution in *.
    destruct (contains_dunder key) eqn:Ec.
    + apply split_dunder_cut in Ec.
      destruct (split_dunder key) as [|field [|operator [|extra rest]]];
        simpl in Ec, Hok; try lia; try discriminate.
      unfold unpack2, mbind, ctl_bind, mret, ctl_ret.
      destruct (hasattr model field); [|rewrite app_nil_r; reflexivity].
      unfold operator_expression.
      repeat (destruct (String.eqb operator _); [reflexivity|]).
      rewrite app_nil_r. reflexivity.
    + rewrite (split_dunder_plain _ Ec).
      destruct (hasattr model key); [reflexivity | rewrite app_nil_r; reflexivity].
  - intros acc [key value] s Hbad. unfold well_formed_key in Hbad.
    destruct (contains_dunder key) eqn:Ec.
    + destruct (split_dunder key) as [|field [|operator [|extra rest]]];
        simpl in Hbad; try discriminate.
      reflexivity.
    + rewrite (split_dunder_plain _ Ec) in Hbad. discriminate.
Qed.






(** ** The password policy *)






Section auth.
Variable bcrypt_hashpw : string → string.
Variable now : scalar.






End auth.

(** ** The progress worker *)

Section worker.
Import progress_bar.

Lemma emit_flag s w : _is_running (emit s w) = _is_running w.
Proof. reflexivity. Qed.





Lemma advance_flag t w : _is_running (advance t w).2 = _is_running w.
Proof. destruct t; reflexivity. Qed.





End worker.

(** ** Worked examples *)

Example split_field_operator : split_dunder "age__gte" = ["age"; "gte"].
Proof. reflexivity. Qed.

Example split_three_underscores : split_dunder "a___b" = ["a"; "_b"].
Proof. reflexivity. Qed.

Example split_operator_with_underscore : split_dunder "id__not_in" = ["id"; "not_in"].
Proof. reflexivity. Qed.

Example split_no_separator : split_dunder "first_name" = ["first_name"].
Proof. reflexivity. Qed.

Example like_contains : like_match "%nn%" "hanna" = true ∧ like_match "%nn%" "hana" = false.
Proof. split; reflexivity. Qed.

Example like_one_character : like_match "b_b" "bob" = true ∧ like_match "b_b" "boob" = false.
Proof. split; reflexivity. Qed.

Example str_of_values :
  py_str (Scalar (SInt (-12))) = "-12" ∧ py_str (Scalar SNull) = "None"
  ∧ py_str (Seq [SInt 1; SStr "a"]) = "[1, 'a']".
Proof. vm_compute. repeat split. Qed.

Example password_accepted :
  user_controller._validate_password "Abcdef1!" = (true, None).
Proof. vm_compute. reflexivity. Qed.

Example password_too_short :
  user_controller._validate_password "Ab1!"
  = (false, Some "Password must be between 8 and 50 characters").
Proof. vm_compute. reflexivity. Qed.

Example password_without_digit :
  user_controller._validate_password "Abcdefgh!"
  = (false, Some "Password must contain at least one digit").
Proof. vm_compute. reflexivity. Qed.

(** The question mark is not in the class of special characters; the space is. *)
Example password_question_mark :
  user_controller._validate_password "Abcdefg1?"
  = (false, Some "Password must contain at least one special character")
  ∧ user_controller._validate_password "Abcdefg1 " = (true, None).
Proof. vm_compute. split; reflexivity. Qed.

Example create_unknown_keyword :
  base_controller.create user_model.UserModel {[ "nickname" := SStr "bobby" ]}
    (closed example.users)
  = (Raises TypeError, closed example.users).
Proof. vm_compute. reflexivity. Qed.

Example count_and_exists :
  base_controller.count user_model.UserModel {[ "username" := Scalar (SStr "bob") ]}
    (closed example.users) = (Returns 1, closed example.users)
  ∧ base_controller.exists_ user_model.UserModel {[ "username" := Scalar (SStr "eve") ]}
      (closed example.users) = (Returns false, closed example.users)
  ∧ base_controller.count user_model.UserModel {[ "id" := Seq [SInt 1; SInt 2; SInt 3] ]}
      (closed example.users) = (Returns 2, closed example.users).
Proof. vm_compute. repeat split. Qed.

Example base_filters_unknown_attribute :
  (base.paginate user_model.UserModel
     {| utils.page := 1; utils.per_page := 10; utils.order_by := None;
        utils.direction := ASCENDING;
        utils.filters := {[ "nickname" := Scalar (SStr "bobby") ]} |}
     (closed example.users)).1 = Raises AttributeError.
Proof. vm_compute. reflexivity. Qed.

Example base_paginate_descending :
  ∃ result,
    base.paginate user_model.UserModel
      {| utils.page := 1; utils.per_page := 1; utils.order_by := Some "username";
         utils.direction := DESCENDING; utils.filters := ∅ |}
      (closed example.users) = (Returns result, closed example.users)
    ∧ result !! "items" = Some (Rows [example.bob])
    ∧ result !! "pages" = Some (Int 2).
Proof. eexists. split; [vm_compute; reflexivity|]. split; vm_compute; reflexivity. Qed.

Example paginate_zero_per_page :
  base_controller.paginate user_model.UserModel 1 0 ∅ (closed example.users)
  = (Raises ZeroDivisionError, closed example.users).
Proof. vm_compute. reflexivity. Qed.

Example create_user_weak_password :
  user_controller.create_user (λ s, s) (SStr "2025-01-01") "cy" "cy@example.org" "secret"
    "Quel est votre film préféré ?" "Alien" None None user_model.DEFAULT
    (closed example.users)
  = (Raises (PasswordValidationError
               (Some "Password must be between 8 and 50 characters")),
     closed example.users).
Proof. vm_compute. reflexivity. Qed.

Example create_user_taken_email :
  user_controller.create_user (λ s, s) (SStr "2025-01-01") "cy" "bob@example.org" "Abcdef1!"
    "Quel est votre film préféré ?" "Alien" None None user_model.DEFAULT
    (closed example.users)
  = (Returns None, closed example.users).
Proof. vm_compute. reflexivity. Qed.

Example create_user_stores_lowered_answer :
  ∃ user table,
    user_controller.create_user (λ s, s) (SStr "2025-01-01") "cy" "cy@example.org" "Abcdef1!"
      "Quel est votre film préféré ?" "Alien" None None user_model.DEFAULT
      (closed example.users)
    = (Returns (Some user), closed table)
    ∧ table = example.users ++ [user]
    ∧ user !! "id" = Some (SInt 3)
    ∧ user !! "secret_answer" = Some (SStr "alien").
Proof. eexists _, _. split; [vm_compute; reflexivity|]. repeat split. Qed.

Example change_password_unknown_user :
  user_controller.change_password (λ s, s) 7 "Abcdef1!" (closed example.users)
  = (Returns false, closed example.users).
Proof. vm_compute. reflexivity. Qed.

(** A worker function that asks [is_running()] before each of two steps. *)
Example worker_stopped_between_steps :
  let loop :=
    progress_bar.is_running (λ running,
      if running then
        progress_bar.progress_callback 1 2
          (progress_bar.is_running (λ running,
             if running then progress_bar.progress_callback 2 2 (progress_bar.returns_ "done")
             else progress_bar.returns_ "stopped"))
      else progress_bar.returns_ "stopped") in
  let st := progress_bar.interleave
              [progress_bar.worker_step; progress_bar.worker_step; progress_bar.ui_stop;
               progress_bar.worker_step; progress_bar.worker_step]
              (progress_bar.start (progress_bar.__init__ loop)) in
  progress_bar.answers st = [true; false]
  ∧ progress_bar.emitted (progress_bar.worker st)
    = [progress_bar.progress_changed 1 2; progress_bar.finished "stopped"].
Proof. vm_compute. split; reflexivity. Qed.

(** * Further properties *)

(** ** Round trips of [create], [get_by_id], [update] and [delete] *)






Lemma hasattr_id model : hasattr model "id" = true.
Proof. unfold hasattr. apply bool_decide_eq_true. left. reflexivity. Qed.

Lemma matches_id_filter model id_ r :
  matches_filters model {[ "id" := Scalar (SInt id_) ]} r = has_id id_ r.
Proof.
  unfold matches_filters. rewrite map_to_list_singleton.
  cbn [forallb filter_expression]. rewrite hasattr_id.
  cbn [implb holds]. apply andb_true_r.
Qed.

(** X2. Once [delete] has returned [True] for a key, the key is gone:
    [get_by_id] raises [RecordNotFoundError], [exists(id=...)] is [False],
    and a second [delete] finds nothing ([RecordNotFoundError] from
    [base_controller.py], [False] from [base.py]); none of these changes
    the table again. *)
Theorem deleted_is_gone (model : Model) (id_ : Z) (table : list row) :
  let '(result, session) := base_controller.delete model id_ (closed table) in
  result = Returns true →
  base_controller.get_by_id id_ session = (Raises RecordNotFoundError, session)
  ∧ base_controller.exists_ model {[ "id" := Scalar (SInt id_) ]} session
    = (Returns false, session)
  ∧ base_controller.delete model id_ session = (Raises RecordNotFoundError, session)
  ∧ base.delete model id_ session = (Returns false, session).
Proof.
  rewrite delete_closed.
  destruct (List.find (has_id id_) table) eqn:Efind; [|discriminate].
  intros _.
  assert (List.find (has_id id_) (List.filter (λ r, negb (has_id id_ r)) table) = None)
    as Hgone.
  { apply find_none_iff. intros [r [[_ Hr]%List.filter_In Hid]].
    rewrite Hid in Hr. discriminate. }
  rewrite get_by_id_closed, delete_closed, base_delete_closed, exists_closed, Hgone.
  repeat split. f_equal. f_equal.
  unfold counted.
  rewrite (List.filter_ext _ _ (matches_id_filter model id_)).
  destruct (List.filter _ (List.filter _ (List.filter _ table))) as [|r rest] eqn:E;
    [reflexivity|].
  exfalso.
  assert (In r (r :: rest)) as Hin by (left; reflexivity).
  rewrite <- E in Hin.
  apply List.filter_In in Hin as [[[_ Hnot]%List.filter_In Hmatch]%List.filter_In _].
  rewrite Hmatch in Hnot. discriminate.
Qed.

Lemma deleted_is_gone_witness :
  base_controller.delete user_model.UserModel 2 (closed example.users)
  = (Returns true, closed [example.ann])
  ∧ base_controller.get_by_id 2 (closed [example.ann])
    = (Raises RecordNotFoundError, closed [example.ann])
  ∧ base.delete user_model.UserModel 2 (closed [example.ann])
    = (Returns false, closed [example.ann]).
Proof.
  assert (base_controller.delete user_model.UserModel 2 (closed example.users)
          = (Returns true, closed [example.ann])) as Hdeleted by (vm_compute; reflexivity).
  split; [exact Hdeleted|].
  pose proof (deleted_is_gone user_model.UserModel 2 example.users) as Hgone.
  rewrite Hdeleted in Hgone.
  destruct (Hgone eq_refl) as (Hget & _ & _ & Hdelete). auto.
Defined.





(** ** [search], [get_all] and [delete_all] *)

Lemma for_each_filter {A : Type} (body : Query → A → Ctl Query)
  (ok : A → bool) (give : A → option predicate) (items : list A) :
  (∀ q x s, ok x = true →
     body q x s = (Returns (match give x with Some p => query_filter q p | None => q end), s)) →
  (∀ q x s, ok x = false → body q x s = (Raises ValueError, s)) →
  ∀ q s,
    for_each items q body s
    = if forallb ok items then (Returns (foldl query_filter q (omap give items)), s)
      else (Raises ValueError, s).
Proof.
  intros Hok Hbad. induction items as [|x items IH]; intros q s; simpl; [reflexivity|].
  unfold mbind, ctl_bind. destruct (ok x) eqn:Ex; simpl.
  - rewrite (Hok _ _ _ Ex), IH. destruct (give x); reflexivity.
  - rewrite (Hbad _ _ _ Ex). reflexivity.
Qed.

Lemma selects_filters q clauses r :
  selects (foldl query_filter q clauses) r = selects q r && forallb (λ p, holds p r) clauses.
Proof.
  revert q. induction clauses as [|p clauses IH]; intros q; simpl.
  - rewrite andb_true_r. reflexivity.
  - rewrite IH, selects_query_filter, andb_assoc. reflexivity.
Qed.

Lemma window_filters q clauses :
  ordering (foldl query_filter q clauses) = ordering q
  ∧ offset_ (foldl query_filter q clauses) = offset_ q
  ∧ limit_ (foldl query_filter q clauses) = limit_ q.
Proof.
  revert q. induction clauses as [|p clauses IH]; intros q; simpl; [auto|].
  destruct (IH (query_filter q p)) as (-> & -> & ->). auto.
Qed.

Lemma matching_filters clauses table :
  matching (foldl query_filter session_query clauses) table = satisfying clauses table.
Proof. apply List.filter_ext. intros r. rewrite selects_filters. reflexivity. Qed.

Lemma select_window q limit offset table :
  ordering q = None → offset_ q = None → limit_ q = None →
  select (match int_truthy limit with
          | Some n => query_limit (match int_truthy offset with
                                   | Some m => query_offset q m
                                   | None => q
                                   end) n
          | None => match int_truthy offset with
                    | Some m => query_offset q m
                    | None => q
                    end
          end) table
  = window limit offset (matching q table).
Proof.
  intros Hord Hoff Hlim. unfold window, select, apply_limit, apply_offset, ordered.
  destruct (int_truthy limit), (int_truthy offset); simpl; rewrite ?Hord, ?Hoff, ?Hlim;
    reflexivity.
Qed.

Lemma search_closed model limit offset filters table :
  base_controller.search model limit offset filters (closed table) =
  if well_formed_keys filters
  then (Returns (window limit offset
                   (satisfying (contributions search_operator_expression model filters) table)),
        closed table)
  else (Raises ValueError, closed table).
Proof.
  unfold base_controller.search, try_finally, well_formed_keys, contributions.
  unfold mbind at 1, ctl_bind at 1.
  rewrite (for_each_filter _ (λ '(key, _), well_formed_key key)
             (λ '(key, value), contribution search_operator_expression model key value)).
  - destruct (forallb _ _); [|reflexivity].
    unfold query_all. cbn [working closed].
    set (q := foldl query_filter session_query _).
    destruct (window_filters session_query
                (omap (λ '(key, value),
                         contribution search_operator_expression model key value)
                      (map_to_list filters))) as (Hord & Hoff & Hlim).
    fold q in Hord, Hoff, Hlim.
    rewrite (select_window q limit offset table Hord Hoff Hlim).
    unfold q. rewrite matching_filters. reflexivity.
  - intros q [key value] s Hok. unfold well_formed_key, contribution in *.
    destruct (contains_dunder key) eqn:Ec.
    + apply split_dunder_cut in Ec.
      destruct (split_dunder key) as [|field [|operator [|extra rest]]];
        simpl in Ec, Hok; try lia; try discriminate.
      unfold unpack2, mbind, ctl_bind, mret, ctl_ret.
      destruct (hasattr model field); [|reflexivity].
      unfold search_operator_expression.
      repeat (destruct (String.eqb operator _); [reflexivity|]).
      reflexivity.
    + rewrite (split_dunder_plain _ Ec).
      destruct (hasattr model key); reflexivity.
  - intros q [key value] s Hbad. unfold well_formed_key in Hbad.
    destruct (contains_dunder key) eqn:Ec.
    + destruct (split_dunder key) as [|field [|operator [|extra rest]]];
        simpl in Hbad; try discriminate.
      reflexivity.
    + rewrite (split_dunder_plain _ Ec) in Hbad. discriminate.
Qed.



Lemma omap_ext_forallb {A B : Type} (f g : A → option B) (ok : A → bool) (l : list A) :
  (∀ x, ok x = true → f x = g x) → forallb ok l = true → omap f l = omap g l.
Proof.
  intros Hfg. induction l as [|x l IH]; [reflexivity|].
  intros [Hx Hl]%andb_true_iff.
  change (omap f (x :: l)) with (match f x with Some y => y :: omap f l | None => omap f l end).
  change (omap g (x :: l)) with (match g x with Some y => y :: omap g l | None => omap g l end).
  rewrite (Hfg x Hx), (IH Hl). reflexivity.
Qed.

Lemma same_reading_contribution model key value :
  same_reading key = true →
  contribution search_operator_expression model key value
  = contribution operator_expression model key value.
Proof.
  unfold same_reading, contribution.
  destruct (split_dunder key) as [|field [|operator [|extra rest]]]; try reflexivity.
  intros Hsame. destruct (hasattr model field); [|reflexivity].
  unfold search_operator_expression, operator_expression.
  apply negb_true_iff in Hsame.
  repeat (apply orb_false_iff in Hsame as [Hsame ?]).
  destruct (String.eqb_spec operator "like") as [->|?]; [reflexivity|].
  destruct (String.eqb_spec operator "lt") as [->|?]; [reflexivity|].
  destruct (String.eqb_spec operator "gt") as [->|?]; [reflexivity|].
  destruct (String.eqb operator "eq"); [discriminate|].
  destruct (String.eqb operator "in"); [discriminate|].
  destruct (String.eqb operator "gte"); [discriminate|].
  destruct (String.eqb operator "lte"); [discriminate|].
  reflexivity.
Qed.

(** X5. [search] (without limit and offset) and [find_by_attributes]
    give the same answer, rows or [ValueError], whenever every key is
    plain or uses [like], [lt], [gt] or an operator neither knows.  They
    part on [in], [gte] and [lte], which [search] ignores, and on [eq],
    which [find_by_attributes] ignores. *)
Theorem search_agrees_with_find_by_attributes (model : Model)
  (filters : gmap string pyval) (table : list row) :
  forallb (λ '(key, _), same_reading key) (map_to_list filters) = true →
  base_controller.search model None None filters (closed table)
  = base_controller.find_by_attributes model filters (closed table).
Proof.
  intros Hsame. rewrite search_closed, find_by_attributes_closed.
  destruct (well_formed_keys filters); [|reflexivity].
  unfold contributions.
  rewrite (omap_ext_forallb _ (λ '(key, value), contribution operator_expression model key value)
             (λ '(key, _), same_reading key)); [reflexivity | | exact Hsame].
  intros [key value]. apply same_reading_contribution.
Qed.

Lemma search_agrees_with_find_by_attributes_witness :
  base_controller.search user_model.UserModel None None
    {[ "username__like" := Scalar (SStr "n"); "id__lt" := Scalar (SInt 2) ]}
    (closed example.users)
  = base_controller.find_by_attributes user_model.UserModel
      {[ "username__like" := Scalar (SStr "n"); "id__lt" := Scalar (SInt 2) ]}
      (closed example.users).
Proof.
  apply search_agrees_with_find_by_attributes. vm_compute. reflexivity.
Defined.

(** Where they part: [search] ignores [gte]. *)
Example search_ignores_gte :
  base_controller.search user_model.UserModel None None
    {[ "id__gte" := Scalar (SInt 2) ]} (closed example.users)
  = (Returns example.users, closed example.users)
  ∧ base_controller.find_by_attributes user_model.UserModel
      {[ "id__gte" := Scalar (SInt 2) ]} (closed example.users)
    = (Returns [example.bob], closed example.users).
Proof. split; vm_compute; reflexivity. Qed.





Lemma foldl_filters_window q (items : list (string * pyval)) :
  offset_ (foldl (λ q '(key, value), query_filter q (filter_expression key value)) q items)
  = offset_ q
  ∧ limit_ (foldl (λ q '(key, value), query_filter q (filter_expression key value)) q items)
    = limit_ q.
Proof.
  revert q. induction items as [|[key value] items IH]; intros q; simpl; [auto|].
  destruct (IH (query_filter q (filter_expression key value))) as [-> ->]. auto.
Qed.

Lemma base_get_all_closed model (options : utils.SearchOptions) table :
  base.get_all model (Some options) (closed table) =
  let rows := List.filter (matches_all_filters (utils.search_filters options)) table in
  if negb (valid_fields model (utils.search_filters options))
  then (Raises AttributeError, closed table)
  else if negb (valid_order_by model (utils.search_order_by options))
  then (Raises AttributeError, closed table)
  else (Returns (window (utils.limit options) (utils.offset options)
                   (in_order (utils.search_order_by options)
                      (utils.search_direction options) rows)),
        closed table).
Proof.
  cbv zeta. unfold base.get_all, try_finally, valid_order_by, in_order.
  unfold mbind at 1, ctl_bind at 1. unfold mbind at 1, ctl_bind at 1.
  assert ((if dict_truthy (utils.search_filters options)
           then base._apply_filters model session_query (utils.search_filters options)
           else mret session_query) (closed table)
          = base._apply_filters model session_query (utils.search_filters options)
              (closed table)) as ->.
  { destruct (dict_truthy (utils.search_filters options)) eqn:E; [reflexivity|].
    rewrite base_apply_filters_run, valid_fields_falsy by exact E.
    unfold dict_truthy in E.
    destruct (map_to_list (utils.search_filters options)); [reflexivity|discriminate]. }
  rewrite base_apply_filters_run.
  destruct (valid_fields model (utils.search_filters options)); simpl negb; cbv iota;
    [|reflexivity].
  set (q := foldl _ session_query _).
  assert (matching q table
          = List.filter (matches_all_filters (utils.search_filters options)) table)
    as Hmatch.
  { apply List.filter_ext. intros r. unfold q. rewrite selects_all_filters. reflexivity. }
  assert (ordering q = None) as Hord by (unfold q; apply ordering_all_filters).
  destruct (foldl_filters_window session_query (map_to_list (utils.search_filters options)))
    as [Hoff Hlim].
  fold q in Hoff, Hlim. cbn [offset_ limit_ session_query] in Hoff, Hlim.
  unfold mbind, ctl_bind, getattr, query_all.
  change (base.order_by_truthy (utils.search_order_by options))
    with (str_truthy (utils.search_order_by options)).
  destruct (str_truthy (utils.search_order_by options)) as [column|].
  - destruct (hasattr model column); simpl negb; cbv iota; [|reflexivity].
    cbn [mret ctl_ret working closed].
    unfold window, select, apply_limit, apply_offset, ordered.
    destruct (int_truthy (utils.limit options)), (int_truthy (utils.offset options));
      cbn [query_limit query_offset query_order_by ordering offset_ limit_];
      rewrite ?Hoff, ?Hlim, <- Hmatch; reflexivity.
  - cbn [mret ctl_ret working closed negb].
    unfold window, select, apply_limit, apply_offset, ordered.
    destruct (int_truthy (utils.limit options)), (int_truthy (utils.offset options));
      cbn [query_limit query_offset ordering offset_ limit_];
      rewrite ?Hord, ?Hoff, ?Hlim, <- Hmatch; reflexivity.
Qed.










(** A condition on an attribute the model does not have empties the table. *)
Example delete_all_unknown_attribute :
  base_controller.delete_all user_model.UserModel
    (Some {[ "nickname" := Scalar (SStr "bobby") ]}) (closed example.users)
  = (Returns 2, closed []).
Proof. vm_compute. reflexivity. Qed.



(** ** Pages *)

Lemma items_of_paginate model page per_page filters table :
  1 ≤ per_page →
  items_of (base_controller.paginate model page per_page filters (closed table))
  = take (Z.to_nat per_page)
      (drop (Z.to_nat ((page - 1) * per_page))
         (List.filter (matches_filters model filters) table)).
Proof.
  intros Hpp. rewrite paginate_closed. cbv zeta.
  assert ((per_page =? 0) = false) as -> by (apply Z.eqb_neq; lia).
  unfold items_of. cbn [fst].
  destruct (lookup_page_dict
              (slice ((page - 1) * per_page) per_page
                 (List.filter (matches_filters model filters) table))
              (Z.of_nat (List.length (List.filter (matches_filters model filters) table)))
              page per_page
              ((Z.of_nat (List.length (List.filter (matches_filters model filters) table))
                + per_page - 1) `div` per_page)) as [-> _].
  apply slice_positive. exact Hpp.
Qed.

Lemma concat_chunks {A : Type} (p n : nat) (l : list A) :
  List.concat (map (λ i, take p (drop ((i - 1) * p) l)) (List.seq 1 n)) = take (n * p) l.
Proof.
  induction n as [|n IH]; [reflexivity|].
  rewrite seq_S, map_app, concat_app, IH.
  change (List.concat (map _ [(1 + n)%nat]))
    with (take p (drop ((1 + n - 1) * p) l) ++ []).
  rewrite app_nil_r.
  replace ((1 + n - 1) * p)%nat with (n * p)%nat by lia.
  rewrite take_take_drop. f_equal. lia.
Qed.

(** X10. The pages of [paginate] partition the matching rows: for a
    positive page size, the items of the pages [1 .. pages], one after
    the other, are the matching rows in the order of the query, each of
    these pages holds a row, and every later page is empty. *)
Theorem pages_partition (model : Model) (per_page : Z) (filters : gmap string pyval)
  (table : list row) :
  1 ≤ per_page →
  let rows := List.filter (matches_filters model filters) table in
  let pages := (Z.of_nat (List.length rows) + per_page - 1) `div` per_page in
  let items page :=
    items_of (base_controller.paginate model page per_page filters (closed table)) in
  List.concat (map (λ i, items (Z.of_nat i)) (List.seq 1 (Z.to_nat pages))) = rows
  ∧ (∀ page, 1 ≤ page ≤ pages → items page ≠ [])
  ∧ (∀ page, pages < page → items page = []).
Proof.
  intros Hpp rows pages items.
  pose proof (ceiling_div (Z.of_nat (List.length rows)) per_page ltac:(lia) Hpp) as Hceil.
  unfold is_ceiling in Hceil. fold pages in Hceil.
  assert (0 ≤ pages) as Hpages by nia.
  split; [|split].
  - rewrite (map_ext_in _ (λ i, take (Z.to_nat per_page)
                                  (drop ((i - 1) * Z.to_nat per_page) rows))).
    + rewrite concat_chunks. apply take_ge. nia.
    + intros i Hi%in_seq. unfold items. rewrite items_of_paginate by exact Hpp.
      fold rows. do 2 f_equal. nia.
  - intros page Hpage. unfold items. rewrite items_of_paginate by exact Hpp. fold rows.
    intros Hnil. apply (f_equal List.length) in Hnil.
    rewrite length_take, length_drop in Hnil. simpl in Hnil. nia.
  - intros page Hpage. unfold items. rewrite items_of_paginate by exact Hpp. fold rows.
    rewrite drop_ge; [apply take_nil | nia].
Qed.

Lemma pages_partition_witness :
  let rows := List.filter (matches_filters user_model.UserModel ∅) example.users in
  List.concat (map (λ i, items_of (base_controller.paginate user_model.UserModel (Z.of_nat i) 1 ∅
                                (closed example.users)))
            (List.seq 1 (Z.to_nat ((Z.of_nat (List.length rows) + 1 - 1) `div` 1))))
  = rows.
Proof. exact (proj1 (pages_partition user_model.UserModel 1 ∅ example.users ltac:(lia))). Defined.

(** ** [bulk_create] *)

Lemma for_each_model_new model items (instances : list row) s :
  for_each items instances
    (λ instances item, instance ← model_new model item; mret (instances ++ [instance])) s
  = if forallb (valid_fields model) items then (Returns (instances ++ items), s)
    else (Raises TypeError, s).
Proof.
  revert instances. induction items as [|item items IH]; intros instances.
  - simpl. rewrite app_nil_r. reflexivity.
  - cbn [for_each forallb]. unfold mbind at 1, ctl_bind at 1.
    unfold mbind at 1, ctl_bind at 1, model_new. fold (valid_fields model item).
    destruct (valid_fields model item); [|reflexivity].
    unfold mret at 1, ctl_ret at 1. unfold mret at 1, ctl_ret at 1.
    rewrite IH, <- app_assoc. reflexivity.
Qed.

Lemma bulk_create_closed model items table :
  base_controller.bulk_create model items (closed table) =
  if negb (forallb (valid_fields model) items) then (Raises TypeError, closed table)
  else match bulk_insert model items table with
       | (Returns _, table') => (Returns items, closed table')
       | (Raises e, _) => (Raises e, closed table)
       end.
Proof.
  unfold base_controller.bulk_create, try_finally, try_except.
  unfold mbind at 1, ctl_bind at 1. rewrite for_each_model_new.
  destruct (forallb (valid_fields model) items); [|reflexivity].
  simpl negb. cbv iota. rewrite app_nil_l.
  unfold mbind, ctl_bind, session_bulk_save_objects. cbn [working closed].
  destruct (bulk_insert model items table) as [[[]|e] table']; reflexivity.
Qed.

Lemma bulk_insert_raises model items table e table' :
  bulk_insert model items table = (Raises e, table') → e = IntegrityError.
Proof.
  revert table. induction items as [|item items IH]; intros table E.
  - discriminate.
  - simpl in E. destruct (insert_violates model table item); [congruence|]. eauto.
Qed.

Lemma base_bulk_create_closed model items table :
  base.bulk_create model items (closed table)
  = base_controller.bulk_create model items (closed table).
Proof.
  rewrite bulk_create_closed.
  unfold base.bulk_create, try_finally, try_except.
  unfold mbind at 1, ctl_bind at 1. rewrite for_each_model_new.
  destruct (forallb (valid_fields model) items); [|reflexivity].
  simpl negb. cbv iota. rewrite app_nil_l.
  unfold mbind, ctl_bind, session_bulk_save_objects. cbn [working closed].
  destruct (bulk_insert model items table) as [[[]|e] table'] eqn:E; [reflexivity|].
  rewrite (bulk_insert_raises _ _ _ _ _ E). reflexivity.
Qed.

Lemma create_one_by_one model items table :
  match for_each items () (λ _ item, base_controller.create model item;; mret ())
          (closed table) with
  | (Returns _, session) =>
      forallb (valid_fields model) items = true
      ∧ ∃ table', bulk_insert model items table = (Returns (), table')
                  ∧ session = closed table'
  | (Raises _, _) =>
      forallb (valid_fields model) items = false
      ∨ ∃ table', bulk_insert model items table = (Raises IntegrityError, table')
  end.
Proof.
  revert table. induction items as [|item items IH]; intros table.
  - simpl. eauto.
  - cbn [for_each forallb bulk_insert]. unfold mbind at 1, ctl_bind at 1.
    unfold mbind at 1, ctl_bind at 1. rewrite create_closed.
    destruct (valid_fields model item); simpl negb; cbv iota; [|left; reflexivity].
    destruct (insert_violates model table item); [right; eauto|].
    unfold mret at 1, ctl_ret at 1. exact (IH _).
Qed.

(** X11. [bulk_create] is all or nothing.  When creating the items one
    after the other with [create] succeeds, [bulk_create] commits the same
    table; it returns the instances as they were built, without the
    primary keys the insert generated.  When [create] fails at some item,
    [bulk_create] stores nothing, not even the items before it, and
    raises [TypeError] (a keyword that is not an attribute) or
    [IntegrityError], never [RecordAlreadyExistsError].  [base.py] and
    [base_controller.py] behave alike. *)
Theorem bulk_create_all_or_nothing (model : Model) (items : list (gmap string scalar))
  (table : list row) :
  base.bulk_create model items (closed table)
  = base_controller.bulk_create model items (closed table)
  ∧ match for_each items () (λ _ item, base_controller.create model item;; mret ())
            (closed table) with
    | (Returns _, session) =>
        base_controller.bulk_create model items (closed table) = (Returns items, session)
    | (Raises _, _) =>
        ∃ e, (e = TypeError ∨ e = IntegrityError)
             ∧ base_controller.bulk_create model items (closed table)
               = (Raises e, closed table)
    end.
Proof.
  split; [apply base_bulk_create_closed|].
  pose proof (create_one_by_one model items table) as H.
  rewrite bulk_create_closed.
  destruct (for_each _ _ _ _) as [[[]|e] session].
  - destruct H as [-> [table' [-> ->]]]. reflexivity.
  - destruct (forallb (valid_fields model) items); simpl negb; cbv iota.
    + destruct H as [H|[table' ->]]; [discriminate|]. eauto.
    + eauto.
Qed.

(** The second item repeats a user name: neither is stored, where [create]
    would have stored the first. *)
Example bulk_create_stores_nothing :
  base_controller.bulk_create user_model.UserModel
    [ {[ "username" := SStr "cy" ]}; {[ "username" := SStr "ann" ]} ]
    (closed example.users)
  = (Raises IntegrityError, closed example.users).
Proof. vm_compute. reflexivity. Qed.

(** ** [bulk_update] of [base.py] *)

Lemma base_update_closes model id_ kwargs s :
  (base.update model id_ kwargs s).2 = closed (committed (base.update model id_ kwargs s).2).
Proof.
  unfold base.update. rewrite try_finally_closes. reflexivity.
Qed.

Lemma base_bulk_update_cons model item items table :
  base.bulk_update model (item :: items) (closed table) =
  match base.item_id item with
  | None => (Raises ValueError, closed table)
  | Some id_ =>
      match base.update model id_ (base.item_data item) (closed table) with
      | (Returns _, session) => base.bulk_update model items session
      | (Raises e, session) => (Raises e, session)
      end
  end.
Proof.
  unfold base.bulk_update at 1. unfold try_finally, try_except.
  unfold mbind at 1, ctl_bind at 1. cbn [for_each].
  unfold mbind at 1, ctl_bind at 1.
  destruct (base.item_id item) as [id_|]; [|reflexivity].
  unfold mbind at 1, ctl_bind at 1.
  pose proof (base_update_closes model id_ (base.item_data item) (closed table)) as Hclosed.
  destruct (base.update model id_ (base.item_data item) (closed table)) as [[r|e] session].
  - unfold mret at 1, ctl_ret at 1. reflexivity.
  - cbn [snd] in Hclosed. rewrite Hclosed.
    destruct (is_SQLAlchemyError e); reflexivity.
Qed.

(** X12. [bulk_update] of [base.py] is the run of the single updates, each
    committed on its own: an item without ['id'] or whose [update] raises
    stops the run with that exception, the updates of the items before it
    stay committed and the items after it are not looked at.  An empty
    list, and a run with no failure, return [True]. *)
Theorem bulk_update_one_by_one (model : Model) (item : base.update_item)
  (items : list base.update_item) (table : list row) :
  base.bulk_update model [] (closed table) = (Returns true, closed table)
  ∧ base.bulk_update model (item :: items) (closed table)
    = match base.item_id item with
      | None => (Raises ValueError, closed table)
      | Some id_ =>
          match base.update model id_ (base.item_data item) (closed table) with
          | (Returns _, session) => base.bulk_update model items session
          | (Raises e, session) => (Raises e, session)
          end
      end
  ∧ ∃ result table',
      base.bulk_update model (item :: items) (closed table) = (result, closed table')
      ∧ (result = Returns true ∨ ∃ e, result = Raises e).
Proof.
  split; [reflexivity|]. split; [apply base_bulk_update_cons|].
  assert (∀ items table, ∃ result table',
            base.bulk_update model items (closed table) = (result, closed table')
            ∧ (result = Returns true ∨ ∃ e, result = Raises e)) as Hrun.
  { clear. intros items. induction items as [|item items IH]; intros table.
    - exists (Returns true), table. split; [reflexivity | left; reflexivity].
    - rewrite base_bulk_update_cons.
      destruct (base.item_id item) as [id_|]; [|eauto 6].
      pose proof (base_update_closes model id_ (base.item_data item) (closed table))
        as Hclosed.
      destruct (base.update model id_ (base.item_data item) (closed table))
        as [[r|e] session]; cbn [snd] in Hclosed; rewrite Hclosed; [apply IH | eauto 6]. }
  apply Hrun.
Qed.

(** The second item names a missing row: the first update stays. *)
Example bulk_update_keeps_earlier_updates :
  ∃ table,
    base.bulk_update user_model.UserModel
      [ {| base.item_id := Some 1; base.item_data := {[ "first_name" := SStr "Ann" ]} |};
        {| base.item_id := Some 7; base.item_data := {[ "first_name" := SStr "Guy" ]} |} ]
      (closed example.users)
    = (Raises RecordNotFoundError, closed table)
    ∧ map (λ r, attr r "first_name") table = [SStr "Ann"; SNull].
Proof. eexists. split; vm_compute; reflexivity. Qed.

(** ** Reading and updating by a key of any type *)

Lemma get_by_key_closed key table :
  base_controller.get_by_key key (closed table) =
  (match row_of_key key table with
   | Some r => Returns r
   | None => Raises RecordNotFoundError
   end, closed table).
Proof.
  unfold base_controller.get_by_key, try_finally, try_except, mbind, ctl_bind, query_get_key,
    row_of_key.
  cbn [working closed]. fold (has_key key).
  destruct key; try reflexivity; destruct (List.find _ table); reflexivity.
Qed.

Lemma selects_by_key key r :
  selects (query_filter session_query (Eq "id" (Scalar key))) r = has_key key r.
Proof. unfold selects, has_key. simpl. apply andb_true_r. Qed.

Lemma update_by_key_closed model key kwargs table :
  base_controller.update_by_key model key kwargs (closed table) =
  if negb (valid_fields model kwargs) then (Raises ValueError, closed table)
  else if update_violates model (set_where_key key kwargs table)
  then (Raises SQLAlchemyError, closed table)
  else match List.find (has_key key) table with
       | None => (Raises RecordNotFoundError, closed table)
       | Some _ =>
           let table' := map snd (set_where_key key kwargs table) in
           (match row_of_key key table' with
            | Some r => Returns r
            | None => Raises RecordNotFoundError
            end, closed table')
       end.
Proof.
  unfold base_controller.update_by_key, valid_fields.
  destruct (List.filter _ (map fst (map_to_list kwargs))) as [|bad rest] eqn:Ebad.
  - apply filter_negb_nil_iff in Ebad. rewrite Ebad. simpl negb. cbv iota.
    unfold try_finally, try_except, mbind, ctl_bind, query_update.
    cbn [working closed committed new deleted flushed].
    rewrite (map_ext _ (λ r, if has_key key r then (true, kwargs ∪ r) else (false, r)))
      by (intros r; rewrite selects_by_key; reflexivity).
    fold (set_where_key key kwargs table).
    destruct (update_violates model (set_where_key key kwargs table)); [reflexivity|].
    rewrite length_matching_zero, (find_ext _ _ _ (selects_by_key key)).
    destruct (List.find (has_key key) table) eqn:Efind; [|reflexivity].
    unfold session_commit.
    cbn [working closed committed new deleted flushed flush_new flush_deleted foldl].
    change {| committed := ?t; working := ?t; new := []; deleted := []; flushed := [] |}
      with (closed t).
    rewrite get_by_key_closed.
    destruct (row_of_key key (map snd (set_where_key key kwargs table))); reflexivity.
  - assert (forallb (hasattr model) (map fst (map_to_list kwargs)) = false) as ->.
    { destruct (forallb _ _) eqn:E; [|done].
      apply filter_negb_nil_iff in E. congruence. }
    reflexivity.
Qed.

Lemma find_by_attribute model column value table :
  split_dunder column = [column] →
  hasattr model column = true →
  base_controller.find_by_attributes model {[ column := Scalar value ]} (closed table)
  = (Returns (List.filter (λ r, scalar_eqb (attr r column) value) table), closed table).
Proof.
  intros Hsplit Hattr. rewrite find_by_attributes_closed.
  unfold well_formed_keys, contributions, satisfying.
  rewrite map_to_list_singleton.
  change (omap ?f [?x]) with (match f x with Some y => [y] | None => [] end).
  cbn [forallb]. unfold well_formed_key, contribution. rewrite Hsplit, Hattr. cbn.
  f_equal. f_equal. apply List.filter_ext. intros r. apply andb_true_r.
Qed.

(** ** [authenticate] *)

Lemma split_dunder_username : split_dunder "username" = ["username"].
Proof. vm_compute. reflexivity. Qed.

Lemma hasattr_username : hasattr user_model.UserModel "username" = true.
Proof. vm_compute. reflexivity. Qed.

Lemma find_by_username username table :
  base_controller.find_by_attributes user_model.UserModel
    {[ "username" := Scalar (SStr username) ]} (closed table)
  = (Returns (with_value "username" username table), closed table).
Proof. apply find_by_attribute; [exact split_dunder_username | exact hasattr_username]. Qed.

Lemma update_by_key_closes model key kwargs s :
  (base_controller.update_by_key model key kwargs s).2
  = closed (committed (base_controller.update_by_key model key kwargs s).2).
Proof. unfold base_controller.update_by_key. rewrite try_finally_closes. reflexivity. Qed.

Lemma authenticate_closed bcrypt_checkpw now username password table :
  user_controller.authenticate bcrypt_checkpw now username password (closed table) =
  match with_value "username" username table with
  | [] => (Returns (false, None), closed table)
  | user :: _ =>
      if truthy (attr user "is_active") then
        match attr user "password" with
        | SStr hashed =>
            if bcrypt_checkpw password hashed
            then (Returns (true, Some user),
                  (base_controller.update_by_key user_model.UserModel (attr user "id")
                     {[ "last_login" := now ]} (closed table)).2)
            else (Returns (false, None), closed table)
        | _ => (Returns (false, None), closed table)
        end
      else (Returns (false, None), closed table)
  end.
Proof.
  unfold user_controller.authenticate, try_except.
  unfold mbind at 1, ctl_bind at 1. rewrite find_by_username.
  destruct (with_value "username" username table) as [|user rest]; [reflexivity|].
  destruct (truthy (attr user "is_active")); [|reflexivity].
  change (negb true) with false. cbv iota.
  unfold user_controller._check_password, user_controller.update_last_login, try_except,
    mbind, ctl_bind, mret, ctl_ret, raise.
  destruct (attr user "password") as [|b|z|hashed]; try reflexivity.
  destruct (bcrypt_checkpw password hashed); [|reflexivity].
  destruct (base_controller.update_by_key _ _ _ _) as [[r|e] s]; reflexivity.
Qed.





(** ** Round trips through [AuthController] *)

Lemma with_value_map column value (f : row → row) table :
  (∀ r, attr (f r) column = attr r column) →
  with_value column value (map f table) = map f (with_value column value table).
Proof.
  intros Hf. unfold with_value. induction table as [|r table IH]; [reflexivity|].
  simpl. rewrite Hf. destruct (scalar_eqb (attr r column) (SStr value)); simpl; rewrite IH;
    reflexivity.
Qed.

Lemma attr_union_singleton_ne column column' value (r : row) :
  column ≠ column' → attr ({[ column := value ]} ∪ r) column' = attr r column'.
Proof.
  intros Hne. unfold attr. rewrite lookup_union_r; [reflexivity|].
  apply lookup_singleton_ne. exact Hne.
Qed.

Lemma attr_union_singleton column value (r : row) :
  attr ({[ column := value ]} ∪ r) column = value.
Proof.
  unfold attr. rewrite (lookup_union_Some_l _ _ _ value); [reflexivity|].
  apply lookup_singleton_Some. split; reflexivity.
Qed.

Lemma valid_fields_password (hashed : scalar) :
  valid_fields user_model.UserModel ({[ "password" := hashed ]} : gmap string scalar) = true.
Proof. unfold valid_fields. rewrite map_to_list_singleton. vm_compute. reflexivity. Qed.

Lemma change_password_true bcrypt_hashpw user_id new_password table session :
  user_controller.change_password bcrypt_hashpw user_id new_password (closed table)
  = (Returns true, session) →
  session = closed (map (λ r, if has_id user_id r
                              then {[ "password" := SStr (bcrypt_hashpw new_password) ]} ∪ r
                              else r) table).
Proof.
  unfold user_controller.change_password, try_except.
  destruct (user_controller._validate_password new_password) as [[|] message];
    [|discriminate].
  change (negb true) with false. cbv beta iota.
  unfold mbind, ctl_bind, user_controller._hash_password. cbv beta.
  rewrite update_closed, valid_fields_password. change (negb true) with false. cbv iota.
  destruct (update_violates _ _); [discriminate|].
  destruct (List.find (has_id user_id) table); [|discriminate].
  cbv zeta. rewrite set_where_id_rows.
  destruct (List.find _ _); [|discriminate].
  intros [= <-]. reflexivity.
Qed.

(** X14. A changed password authenticates.  Provided [bcrypt.checkpw]
    accepts a password against its own hash: when [change_password]
    returned [True] for the active user who holds a user name,
    [authenticate] with that name and the new password answers [True]
    with that user, who now stores the hash of the new password. *)
Theorem change_password_then_authenticate
  (bcrypt_hashpw : string → string) (bcrypt_checkpw : string → string → bool)
  (now : scalar) (user_id : Z) (username new_password : string)
  (table : list row) (user : row) (session : Session) :
  (∀ password, bcrypt_checkpw password (bcrypt_hashpw password) = true) →
  head (with_value "username" username table) = Some user →
  attr user "id" = SInt user_id →
  truthy (attr user "is_active") = true →
  user_controller.change_password bcrypt_hashpw user_id new_password (closed table)
  = (Returns true, session) →
  ∃ session',
    user_controller.authenticate bcrypt_checkpw now username new_password session
    = (Returns (true, Some (<["password" := SStr (bcrypt_hashpw new_password)]> user)),
       session').
Proof.
  intros Hcheck Hhead Hid Hactive Hchanged.
  apply change_password_true in Hchanged as ->.
  rewrite authenticate_closed, with_value_map.
  2: { intros r. destruct (has_id user_id r); [|reflexivity].
       apply attr_union_singleton_ne. discriminate. }
  destruct (with_value "username" username table) as [|first rest]; [discriminate|].
  injection Hhead as ->. cbn [map].
  apply has_id_attr in Hid. rewrite Hid.
  rewrite attr_union_singleton_ne by discriminate. rewrite Hactive.
  rewrite attr_union_singleton, Hcheck, insert_union_singleton_l.
  eexists. reflexivity.
Qed.

Lemma change_password_then_authenticate_witness :
  let changed :=
    user_controller.change_password (λ s, s) 2 "Abcdef1!"
      (closed (map (<["is_active" := SBool true]>) example.users)) in
  ∃ session',
    user_controller.authenticate String.eqb (SStr "2025-01-01") "bob" "Abcdef1!" changed.2
    = (Returns (true, Some (<["password" := SStr "Abcdef1!"]>
                              (<["is_active" := SBool true]> example.bob))),
       session').
Proof.
  intros changed.
  apply (change_password_then_authenticate (λ s, s) String.eqb (SStr "2025-01-01") 2 "bob"
           "Abcdef1!" (map (<["is_active" := SBool true]>) example.users)).
  - intros password. apply String.eqb_refl.
  - vm_compute. reflexivity.
  - vm_compute. reflexivity.
  - vm_compute. reflexivity.
  - vm_compute. reflexivity.
Defined.

Lemma attr_with_primary_key table (instance : row) column :
  column ≠ "id" → attr (with_primary_key table instance) column = attr instance column.
Proof.
  intros Hne. unfold with_primary_key.
  destruct (attr instance "id"); try reflexivity.
  unfold attr. rewrite lookup_insert_ne by congruence. reflexivity.
Qed.

Lemma with_value_app column value table table' :
  with_value column value (table ++ table')
  = with_value column value table ++ with_value column value table'.
Proof. unfold with_value. apply List.filter_app. Qed.

(** No stored row holds the value a new row brings in a unique column. *)
Lemma with_value_fresh model table instance column value :
  In column (unique model) →
  attr instance column = SStr value →
  column ≠ "id" →
  insert_violates model table instance = false →
  with_value column value table = [].
Proof.
  intros Hunique Hvalue Hne Hfresh. unfold with_value.
  apply filter_nil_iff, find_none_iff. intros [r [Hin Hr]]. unfold scalar_eqb in Hr. apply bool_decide_eq_true in Hr.
  assert (insert_violates model table instance = true) as Hviolates; [|congruence].
  apply insert_violates_iff. exists r. split; [exact Hin|].
  unfold clash. apply orb_true_iff. right. apply List.existsb_exists.
  exists column. split; [exact Hunique|].
  unfold same_key. rewrite attr_with_primary_key by exact Hne.
  rewrite Hvalue, Hr. unfold scalar_eqb.
  rewrite bool_decide_eq_false_2 by discriminate.
  rewrite bool_decide_eq_true_2 by reflexivity. reflexivity.
Qed.

Lemma create_user_some bcrypt_hashpw now username email password secret_question
  secret_answer first_name last_name user_type table user session :
  user_controller.create_user bcrypt_hashpw now username email password secret_question
    secret_answer first_name last_name user_type (closed table)
  = (Returns (Some user), session) →
  ∃ instance : row,
    attr instance "username" = SStr username
    ∧ attr instance "secret_answer" = SStr (bcrypt_hashpw (lower secret_answer))
    ∧ insert_violates user_model.UserModel table instance = false
    ∧ user = with_primary_key table instance
    ∧ session = closed (table ++ [user]).
Proof.
  unfold user_controller.create_user, try_except.
  destruct (user_controller._validate_password password) as [[|] message];
    [|discriminate].
  change (negb true) with false. cbv beta iota.
  unfold mbind, ctl_bind. cbv beta. rewrite exists_closed.
  destruct (0 <? _); cbv beta iota; [discriminate|].
  rewrite exists_closed. destruct (0 <? _); cbv beta iota; [discriminate|].
  rewrite create_closed.
  destruct (negb _); [discriminate|].
  destruct (insert_violates _ _ _) eqn:Efresh; [discriminate|].
  intros [= <- <-]. eexists. split; [|split; [|split; [exact Efresh|split; reflexivity]]].
  - unfold attr. by simplify_map_eq.
  - unfold attr, user_controller._hash_password. by simplify_map_eq.
Qed.

Lemma verify_secret_answer_closed bcrypt_checkpw username answer table :
  user_controller.verify_secret_answer bcrypt_checkpw username answer (closed table) =
  (Returns match with_value "username" username table with
           | [] => false
           | user :: _ =>
               match attr user "secret_answer" with
               | SStr hashed => bcrypt_checkpw (lower answer) hashed
               | _ => false
               end
           end, closed table).
Proof.
  unfold user_controller.verify_secret_answer, try_except.
  unfold mbind at 1, ctl_bind at 1. rewrite find_by_username.
  destruct (with_value "username" username table) as [|user rest]; [reflexivity|].
  unfold user_controller._check_password.
  destruct (attr user "secret_answer"); reflexivity.
Qed.

(** X15. The secret answer is checked without regard to case.  Provided
    [bcrypt.checkpw] accepts a string against its own hash: once
    [create_user] has returned the new user, [verify_secret_answer] holds
    for that user name and every answer that differs from the registered
    one only by case, and it leaves the table alone. *)
Theorem secret_answer_ignores_case
  (bcrypt_hashpw : string → string) (bcrypt_checkpw : string → string → bool)
  (now : scalar) (username email password secret_question secret_answer answer : string)
  (first_name last_name : option string) (user_type : user_model.UserType)
  (table : list row) (user : row) (session : Session) :
  (∀ text, bcrypt_checkpw text (bcrypt_hashpw text) = true) →
  user_controller.create_user bcrypt_hashpw now username email password secret_question
    secret_answer first_name last_name user_type (closed table)
  = (Returns (Some user), session) →
  lower answer = lower secret_answer →
  user_controller.verify_secret_answer bcrypt_checkpw username answer session
  = (Returns true, session).
Proof.
  intros Hcheck Hcreated Hsame.
  apply create_user_some in Hcreated
    as (instance & Husername & Hanswer & Hfresh & -> & ->).
  rewrite verify_secret_answer_closed, with_value_app.
  rewrite (with_value_fresh user_model.UserModel table instance "username" username);
    [|left; reflexivity|exact Husername|discriminate|exact Hfresh].
  unfold with_value. cbn [List.filter app].
  rewrite attr_with_primary_key by discriminate. rewrite Husername.
  unfold scalar_eqb at 1. rewrite bool_decide_eq_true_2 by reflexivity.
  rewrite attr_with_primary_key by discriminate. rewrite Hanswer, Hsame, Hcheck.
  reflexivity.
Qed.

Lemma secret_answer_ignores_case_witness :
  let created :=
    user_controller.create_user (λ s, s) (SStr "2025-01-01") "cy" "cy@example.org"
      "Abcdef1!" "Quel est votre film préféré ?" "Alien" None None user_model.DEFAULT
      (closed example.users) in
  user_controller.verify_secret_answer String.eqb "cy" "ALIEN" created.2
  = (Returns true, created.2).
Proof.
  intros created.
  apply (secret_answer_ignores_case (λ s, s) String.eqb (SStr "2025-01-01") "cy"
           "cy@example.org" "Abcdef1!" "Quel est votre film préféré ?" "Alien" "ALIEN"
           None None user_model.DEFAULT example.users
           (match created.1 with Returns (Some user) => user | _ => ∅ end)).
  - intros text. apply String.eqb_refl.
  - vm_compute. reflexivity.
  - vm_compute. reflexivity.
Defined.

(** ** [is_admin] and [is_manager] *)

Lemma has_type_closed (t : user_model.UserType) key table :
  try_except
    (user ← base_controller.get_by_key key;
     mret (scalar_eqb (attr user "user_type") (SStr (user_model.UserType_name t))))
    (λ _, Some (mret false)) (closed table)
  = (Returns match row_of_key key table with
             | Some user =>
                 scalar_eqb (attr user "user_type") (SStr (user_model.UserType_name t))
             | None => false
             end, closed table).
Proof.
  unfold try_except, mbind, ctl_bind. rewrite get_by_key_closed.
  destruct (row_of_key key table); reflexivity.
Qed.

(** X16. [is_admin] and [is_manager] never raise and leave the table
    alone.  Each holds exactly when the row with that primary key exists
    and has the type asked for; for a missing user, and for [None], both
    are [False]; no user is both. *)
Theorem admin_or_manager (user_id : Z) (table : list row) :
  ∃ admin manager,
    user_controller.is_admin (SInt user_id) (closed table) = (Returns admin, closed table)
    ∧ user_controller.is_manager (SInt user_id) (closed table)
      = (Returns manager, closed table)
    ∧ (admin = true ↔
       ∃ user, List.find (has_id user_id) table = Some user
               ∧ attr user "user_type" = SStr "ADMIN")
    ∧ (manager = true ↔
       ∃ user, List.find (has_id user_id) table = Some user
               ∧ attr user "user_type" = SStr "MANAGER")
    ∧ admin && manager = false
    ∧ user_controller.is_admin SNull (closed table) = (Returns false, closed table)
    ∧ user_controller.is_manager SNull (closed table) = (Returns false, closed table).
Proof.
  eexists _, _. unfold user_controller.is_admin, user_controller.is_manager.
  rewrite !has_type_closed. do 2 (split; [reflexivity|]).
  unfold row_of_key. change (has_key (SInt user_id)) with (has_id user_id).
  cbn [user_model.UserType_name].
  destruct (List.find (has_id user_id) table) as [user|].
  - unfold scalar_eqb. rewrite !bool_decide_eq_true.
    split; [|split; [|split; [|split; reflexivity]]].
    + split; [eauto | intros [user' [[= <-] Htype]]; exact Htype].
    + split; [eauto | intros [user' [[= <-] Htype]]; exact Htype].
    + destruct (bool_decide_reflect (attr user "user_type" = SStr "ADMIN")) as [->|];
        [|reflexivity].
      rewrite bool_decide_eq_false_2 by discriminate. reflexivity.
  - split; [|split; [|split; [|split]]]; try reflexivity;
      (split; [discriminate | intros [user [[=] _]]]).
Qed.

(** ** Registration codes *)

Lemma filter_twice {A : Type} (f g : A → bool) (l : list A) :
  List.filter g (List.filter f l) = List.filter (λ x, f x && g x) l.
Proof.
  induction l as [|x l IH]; [reflexivity|].
  simpl. destruct (f x); simpl; [destruct (g x)|]; rewrite IH; reflexivity.
Qed.

Lemma find_unused_code code table :
  base_controller.find_by_attributes registration_code_controller.RegistrationCodeModel
    {[ "code" := Scalar (SStr code); "is_used" := Scalar (SBool false) ]} (closed table)
  = (Returns (List.filter (λ r, scalar_eqb (attr r "is_used") (SBool false))
                (with_value "code" code table)), closed table).
Proof.
  rewrite find_by_attributes_closed.
  unfold well_formed_keys, contributions, satisfying.
  assert (map_to_list ({[ "code" := Scalar (SStr code); "is_used" := Scalar (SBool false) ]}
                       : gmap string pyval)
          = [("code", Scalar (SStr code)); ("is_used", Scalar (SBool false))]) as ->
    by (vm_compute; reflexivity).
  change (forallb _ [_; _]) with true. cbv iota.
  change (omap _ [_; _])
    with [Eq "code" (Scalar (SStr code)); Eq "is_used" (Scalar (SBool false))].
  unfold with_value. rewrite filter_twice. f_equal. f_equal.
  apply List.filter_ext. intros r. cbn. rewrite andb_true_r. reflexivity.
Qed.

Lemma find_by_code code table :
  base_controller.find_by_attributes registration_code_controller.RegistrationCodeModel
    {[ "code" := Scalar (SStr code) ]} (closed table)
  = (Returns (with_value "code" code table), closed table).
Proof. apply find_by_attribute; vm_compute; reflexivity. Qed.

Lemma verify_code_closed now code table :
  registration_code_controller.verify_code now code (closed table) =
  (Returns match List.filter (λ r, scalar_eqb (attr r "is_used") (SBool false))
                   (with_value "code" code table) with
           | [] => (false, SNull)
           | reg_code :: _ =>
               match attr reg_code "expiration_date" with
               | SInt expiry =>
                   if expiry <? now then (false, SNull)
                   else (true, attr reg_code "user_type")
               | _ => (false, SNull)
               end
           end, closed table).
Proof.
  unfold registration_code_controller.verify_code, try_except.
  unfold mbind at 1, ctl_bind at 1. rewrite find_unused_code.
  destruct (List.filter _ _) as [|reg_code rest]; [reflexivity|].
  unfold registration_code_controller.date_lt, mbind, ctl_bind, mret, ctl_ret, raise.
  destruct (attr reg_code "expiration_date") as [|b|expiry|s]; try reflexivity.
  destruct (expiry <? now); reflexivity.
Qed.

(** X17. [verify_code] never raises and leaves the table alone.  It
    answers [(True, user_type)] exactly when the first unused row with
    that code expires at the current time or later, [user_type] being
    that row's; a code expiring at this very instant is still valid.
    Otherwise it answers [(False, None)]. *)
Theorem verify_code_sound (now : Z) (code : string) (table : list row) :
  let unused :=
    List.filter (λ r, scalar_eqb (attr r "is_used") (SBool false))
      (with_value "code" code table) in
  ∃ valid user_type,
    registration_code_controller.verify_code now code (closed table)
    = (Returns (valid, user_type), closed table)
    ∧ (valid = true ↔
       ∃ reg_code expiry,
         head unused = Some reg_code
         ∧ attr reg_code "expiration_date" = SInt expiry ∧ now ≤ expiry)
    ∧ (valid = true → ∃ reg_code, head unused = Some reg_code
                                   ∧ user_type = attr reg_code "user_type")
    ∧ (valid = false → user_type = SNull).
Proof.
  intros unused. rewrite verify_code_closed. fold unused.
  destruct unused as [|reg_code rest].
  { eexists _, _. split; [reflexivity|]. split; [|split; [discriminate | reflexivity]].
    split; [discriminate | intros (r & e & [=] & _)]. }
  destruct (attr reg_code "expiration_date") as [|b|expiry|s] eqn:Edate.
  1,2,4: eexists _, _; (split; [reflexivity|]);
    (split; [|split; [discriminate | reflexivity]]);
    (split; [discriminate | intros (r & e & [= <-] & He & _); congruence]).
  destruct (expiry <? now) eqn:Elt.
  - eexists _, _. split; [reflexivity|]. split; [|split; [discriminate | reflexivity]].
    split; [discriminate|]. intros (r & e & [= <-] & He & Hle).
    apply Z.ltb_lt in Elt. rewrite Edate in He. injection He as <-. lia.
  - eexists _, _. split; [reflexivity|]. apply Z.ltb_ge in Elt.
    split; [|split; [eauto | discriminate]].
    split; [eauto | reflexivity].
Qed.

Lemma mark_code_as_used_instance code table updated session :
  registration_code_controller.mark_code_as_used code (closed table)
  = (Returns (registration_code_controller.Instance updated), session) →
  ∃ reg_code,
    head (with_value "code" code table) = Some reg_code
    ∧ row_of_key (attr reg_code "id")
        (map snd (set_where_key (attr reg_code "id") {[ "is_used" := SBool true ]} table))
      = Some updated
    ∧ session
      = closed (map snd (set_where_key (attr reg_code "id") {[ "is_used" := SBool true ]}
                           table)).
Proof.
  unfold registration_code_controller.mark_code_as_used, try_except.
  unfold mbind at 1, ctl_bind at 1. rewrite find_by_code.
  destruct (with_value "code" code table) as [|reg_code rest]; [discriminate|].
  unfold mbind, ctl_bind. rewrite update_by_key_closed.
  destruct (negb _); [discriminate|].
  destruct (update_violates _ _); [discriminate|].
  destruct (List.find _ table); [|discriminate].
  cbv zeta. destruct (row_of_key _ _) as [r|] eqn:Erow; [|discriminate].
  intros [= <- <-]. exists reg_code. rewrite Erow. auto.
Qed.

Lemma set_where_key_map key kwargs table :
  map snd (set_where_key key kwargs table)
  = map (λ r, if has_key key r then kwargs ∪ r else r) table.
Proof.
  unfold set_where_key. rewrite List.map_map. apply map_ext.
  intros r. destruct (has_key key r); reflexivity.
Qed.

(** X18. A code that was marked as used is refused.  When the code is
    stored at most once (the column is unique) and [mark_code_as_used]
    returned the updated row (it returns the row, not [True]), that row
    has [is_used] set, and [verify_code] answers [(False, None)] for the
    code from then on, whatever the time. *)
Theorem used_code_is_refused (now : Z) (code : string) (table : list row)
  (updated : row) (session : Session) :
  (List.length (with_value "code" code table) ≤ 1)%nat →
  registration_code_controller.mark_code_as_used code (closed table)
  = (Returns (registration_code_controller.Instance updated), session) →
  registration_code_controller.verify_code now code session
  = (Returns (false, SNull), session)
  ∧ attr updated "is_used" = SBool true.
Proof.
  intros Honce Hmarked.
  apply mark_code_as_used_instance in Hmarked as (reg_code & Hhead & Hupdated & ->).
  rewrite set_where_key_map in *.
  set (mark := λ r : row, if has_key (attr reg_code "id") r
                          then {[ "is_used" := SBool true ]} ∪ r else r) in *.
  assert (∀ r, attr (mark r) "code" = attr r "code") as Hcode.
  { intros r. unfold mark. destruct (has_key _ r); [|reflexivity].
    apply attr_union_singleton_ne. discriminate. }
  assert (with_value "code" code table = [reg_code]) as Hrows.
  { destruct (with_value "code" code table) as [|r [|r' rest]]; simpl in *;
      [discriminate | congruence | lia]. }
  assert (attr reg_code "code" = SStr code) as Hreg.
  { assert (In reg_code (with_value "code" code table)) as Hin
      by (rewrite Hrows; left; reflexivity).
    unfold with_value in Hin. apply List.filter_In in Hin as [_ Hin].
    unfold scalar_eqb in Hin. apply bool_decide_eq_true in Hin. exact Hin. }
  assert (mark reg_code = {[ "is_used" := SBool true ]} ∪ reg_code) as Hmark.
  { unfold mark, has_key, scalar_eqb. rewrite bool_decide_eq_true_2 by reflexivity.
    reflexivity. }
  split; [|].
  - rewrite verify_code_closed, (with_value_map _ _ mark) by exact Hcode.
    rewrite Hrows. cbn [map List.filter]. rewrite Hmark, attr_union_singleton.
    reflexivity.
  - unfold row_of_key in Hupdated.
    assert (List.find (has_key (attr reg_code "id")) (map mark table) = Some updated)
      as Hfind by (destruct (attr reg_code "id"); [discriminate | exact Hupdated..]).
    apply List.find_some in Hfind as [Hin Hkey].
    apply List.in_map_iff in Hin as (r & <- & Hin).
    assert (has_key (attr reg_code "id") r = true) as Hr.
    { unfold mark in Hkey. destruct (has_key (attr reg_code "id") r) eqn:E;
        [reflexivity | congruence]. }
    unfold mark. rewrite Hr. apply attr_union_singleton.
Qed.

Lemma used_code_is_refused_witness :
  let codes : list row :=
    [ <["id" := SInt 1]> (<["code" := SStr "K7"]> (<["is_used" := SBool false]>
        (<["expiration_date" := SInt 100]> ∅))) ] in
  let marked := registration_code_controller.mark_code_as_used "K7" (closed codes) in
  registration_code_controller.verify_code 50 "K7" (closed codes)
  = (Returns (true, SNull), closed codes)
  ∧ registration_code_controller.verify_code 50 "K7" marked.2
    = (Returns (false, SNull), marked.2).
Proof.
  intros codes marked. split; [vm_compute; reflexivity|].
  apply (used_code_is_refused 50 "K7" codes
           (match marked.1 with
            | Returns (registration_code_controller.Instance updated) => updated
            | _ => ∅
            end) marked.2).
  - vm_compute. lia.
  - vm_compute. reflexivity.
Defined.

(** ** The signals of a run *)

Section signals.
Import progress_bar.






End signals.

(** ** [get_all] and [paginate] of [base.py] *)

Lemma window_slice per_page offset (rows : list row) :
  1 ≤ per_page → 0 ≤ offset →
  window (Some per_page) (Some offset) rows = slice offset per_page rows.
Proof.
  intros Hpp Hoff. rewrite slice_positive by exact Hpp. unfold window, int_truthy.
  assert ((per_page <? 0) = false) as Hneg by (apply Z.ltb_ge; lia).
  destruct per_page as [|p|p]; try lia.
  destruct offset as [|o|o]; try lia; rewrite Hneg; reflexivity.
Qed.

(** X20. In [base.py], [get_all] with [limit = per_page] and
    [offset = (page - 1) * per_page] returns the items of that page of
    [paginate] for the same filters and order, and raises what
    [paginate] raises; neither changes the table. *)
Theorem get_all_is_a_page (model : Model) (page per_page : Z) (order_by : option string)
  (direction : SortDirection) (filters : gmap string pyval) (related : list string)
  (table : list row) :
  1 ≤ page → 1 ≤ per_page →
  let search :=
    {| utils.search_filters := filters; utils.limit := Some per_page;
       utils.offset := Some ((page - 1) * per_page); utils.search_order_by := order_by;
       utils.search_direction := direction; utils.include_related := related |} in
  let pagination :=
    {| utils.page := page; utils.per_page := per_page; utils.order_by := order_by;
       utils.direction := direction; utils.filters := filters |} in
  match base.get_all model (Some search) (closed table) with
  | (Returns rows, session) =>
      session = closed table
      ∧ ∃ result,
          base.paginate model pagination (closed table) = (Returns result, closed table)
          ∧ result !! "items" = Some (Rows rows)
  | (Raises e, session) =>
      base.paginate model pagination (closed table) = (Raises e, session)
  end.
Proof.
  intros Hpage Hpp search pagination.
  rewrite base_get_all_closed, base_paginate_closed. cbv zeta.
  cbn [utils.search_filters utils.limit utils.offset utils.search_order_by
       utils.search_direction utils.page utils.per_page utils.order_by utils.direction
       utils.filters search pagination].
  destruct (negb (valid_fields model filters)); [reflexivity|].
  destruct (negb (valid_order_by model order_by)); [reflexivity|].
  assert ((per_page =? 0) = false) as -> by (apply Z.eqb_neq; lia).
  split; [reflexivity|]. eexists. split; [reflexivity|].
  rewrite window_slice by nia. apply lookup_page_dict.
Qed.

Lemma get_all_is_a_page_witness :
  match base.get_all user_model.UserModel
          (Some {| utils.search_filters := ∅; utils.limit := Some 1;
                   utils.offset := Some ((2 - 1) * 1); utils.search_order_by := Some "username";
                   utils.search_direction := DESCENDING; utils.include_related := [] |})
          (closed example.users) with
  | (Returns rows, session) =>
      session = closed example.users
      ∧ ∃ result,
          base.paginate user_model.UserModel
            {| utils.page := 2; utils.per_page := 1; utils.order_by := Some "username";
               utils.direction := DESCENDING; utils.filters := ∅ |} (closed example.users)
          = (Returns result, closed example.users)
          ∧ result !! "items" = Some (Rows rows)
  | (Raises e, session) =>
      base.paginate user_model.UserModel
        {| utils.page := 2; utils.per_page := 1; utils.order_by := Some "username";
           utils.direction := DESCENDING; utils.filters := ∅ |} (closed example.users)
      = (Raises e, session)
  end.
Proof.
  apply (get_all_is_a_page user_model.UserModel 2 1 (Some "username") DESCENDING ∅ []
           example.users); lia.
Defined.

Example get_all_second_page :
  base.get_all user_model.UserModel
    (Some {| utils.search_filters := ∅; utils.limit := Some 1;
             utils.offset := Some 1; utils.search_order_by := Some "username";
             utils.search_direction := DESCENDING; utils.include_related := [] |})
    (closed example.users)
  = (Returns [example.ann], closed example.users).
Proof. vm_compute. reflexivity. Qed.
